(** * Logging middleware: the log sender, the authenticator, the logger
    factory and the demo component that keeps the list of recent logs.

    Two copies of the logger exist in the repository:
    - [LibLogger]: the module the React demo imports as [@/lib/logger]
      (it also holds [authenticate]);
    - [StarterLogger]: [starter-code/logger.ts], the standalone module,
      which validates the token and the message and trims the message.

    The network, the console and the clock are the ambient effects of the
    code.  They are threaded through a [World]; a computation of the code
    (an [async] function) is a function from the state it runs in to an
    outcome and a new state. *)

From Stdlib Require Import List String Ascii ZArith NArith Bool Lia DecimalString.
Import ListNotations.
Open Scope string_scope.

(** ** Strings

    A JavaScript string is a sequence of UTF-16 code units.  The model keeps
    the code units below 256 (Basic Latin and Latin-1 Supplement), one
    [ascii] per code unit; [toLowerCase] and [trim] are the ECMAScript ones
    on that range. *)

Definition is_upper (c : ascii) : bool :=
  let n := N_of_ascii c in
  (((65 <=? n) && (n <=? 90)) ||
   ((192 <=? n) && (n <=? 222) && negb (n =? 215)))%N.

Definition lower_char (c : ascii) : ascii :=
  if is_upper c then ascii_of_N (N_of_ascii c + 32) else c.

Fixpoint toLowerCase (s : string) : string :=
  match s with
  | EmptyString => EmptyString
  | String c r => String (lower_char c) (toLowerCase r)
  end.

(** WhiteSpace and LineTerminator code points below 256: TAB, LF, VT, FF,
    CR, SP and NBSP. *)
Definition is_space (c : ascii) : bool :=
  let n := N_of_ascii c in
  (((9 <=? n) && (n <=? 13)) || (n =? 32) || (n =? 160))%N.

Fixpoint trimStart (s : string) : string :=
  match s with
  | EmptyString => EmptyString
  | String c r => if is_space c then trimStart r else s
  end.

Fixpoint trimEnd (s : string) : string :=
  match s with
  | EmptyString => EmptyString
  | String c r =>
      match trimEnd r with
      | EmptyString => if is_space c then EmptyString else String c EmptyString
      | r' => String c r'
      end
  end.

Definition trim (s : string) : string := trimEnd (trimStart s).
Arguments trim : simpl never.

(** Rendering of an integer inside a template literal. *)
Definition string_of_Z (z : Z) : string := NilZero.string_of_int (Z.to_int z).

(** ** Values

    The TypeScript interfaces are not checked at run time: an argument or
    what [response.json()] yields may be any value, so both are kept as
    plain values.  An object is the list of its own properties, keys
    distinct; none of them is a function, as in what a JSON text yields.
    Numbers are the safe integers, which a double holds exactly and which
    print in plain decimal. *)

Record SafeInteger : Type := mkSafe {
  int_value : Z;
  int_safe : (Z.abs int_value <? 9007199254740992)%Z = true
}.

#[local] Unset Elimination Schemes.
Inductive JsValue : Type :=
| JsUndefined
| JsNull
| JsBool (b : bool)
| JsNum (n : SafeInteger)
| JsStr (s : string)
| JsArr (items : list JsValue)
| JsObj (props : list (string * JsValue)).
#[local] Set Elimination Schemes.

(** The thrown values; the wording of a [TypeError] or a [SyntaxError] is
    the engine's. *)
Inductive JsError : Type :=
| Error (message : string)
| TypeError (message : string)
| SyntaxError (message : string).

Inductive Outcome (A : Type) : Type :=
| Fulfilled (a : A)
| Rejected (e : JsError).
Arguments Fulfilled {A} a.
Arguments Rejected {A} e.

(** The values on which [if (v)] takes the branch; [!v] is its negation. *)
Definition truthy (v : JsValue) : bool :=
  match v with
  | JsUndefined | JsNull => false
  | JsBool b => b
  | JsNum n => negb (int_value n =? 0)%Z
  | JsStr s => negb (s =? "")
  | JsArr _ | JsObj _ => true
  end.

(** [typeof v === 'string'] *)
Definition is_string (v : JsValue) : bool :=
  match v with JsStr _ => true | _ => false end.

Fixpoint lookup (k : string) (props : list (string * JsValue)) : option JsValue :=
  match props with
  | [] => None
  | (k', v) :: rest => if k' =? k then Some v else lookup k rest
  end.

(** A value inside a template literal.  An object is rendered by its
    [toString]: the inherited one gives "[object Object]"; an own property
    of that name hides it and, not being a function, makes the rendering
    throw.  An array renders its items, joined by commas, and throws when
    one of them does. *)
Fixpoint to_string (v : JsValue) : Outcome string :=
  match v with
  | JsUndefined => Fulfilled "undefined"
  | JsNull => Fulfilled "null"
  | JsBool true => Fulfilled "true"
  | JsBool false => Fulfilled "false"
  | JsNum n => Fulfilled (string_of_Z (int_value n))
  | JsStr s => Fulfilled s
  | JsArr items =>
      (fix join (l : list JsValue) : Outcome string :=
         match l with
         | [] => Fulfilled ""
         | x :: r =>
             match (match x with
                    | JsUndefined | JsNull => Fulfilled ""
                    | _ => to_string x
                    end) with
             | Rejected e => Rejected e
             | Fulfilled e =>
                 match r with
                 | [] => Fulfilled e
                 | _ =>
                     match join r with
                     | Rejected e' => Rejected e'
                     | Fulfilled t => Fulfilled (e ++ "," ++ t)
                     end
                 end
             end
         end) items
  | JsObj props =>
      match lookup "toString" props with
      | Some _ => Rejected (TypeError "Cannot convert object to primitive value")
      | None => Fulfilled "[object Object]"
      end
  end.

(** The receiver of a call such as [level.toLowerCase()]: a string has the
    method, on anything else the call throws. *)
Definition string_receiver (what : string) (v : JsValue) : Outcome string :=
  match v with
  | JsStr s => Fulfilled s
  | JsUndefined => Rejected (TypeError "Cannot read properties of undefined")
  | JsNull => Rejected (TypeError "Cannot read properties of null")
  | _ => Rejected (TypeError (what ++ " is not a function"))
  end.

(** [v.k]: reading a property of [null] or [undefined] throws; a property
    that is missing reads as [undefined]. *)
Definition get_prop (v : JsValue) (k : string) : Outcome JsValue :=
  match v with
  | JsUndefined => Rejected (TypeError "Cannot read properties of undefined")
  | JsNull => Rejected (TypeError "Cannot read properties of null")
  | JsObj props =>
      Fulfilled (match lookup k props with Some x => x | None => JsUndefined end)
  | _ => Fulfilled JsUndefined
  end.

(** The field [k] of an object, as it travels in a JSON body. *)
Definition field (k : string) (v : JsValue) : option JsValue :=
  match v with
  | JsObj props => lookup k props
  | _ => None
  end.

(** ** The network, the console, the clock *)

(** The body of a request is the serialisation of a value; the serialiser is
    the platform's and the body is identified by the value it was given. *)
Inductive JsonText : Type :=
| JSON_stringify (v : JsValue).

Definition payload (b : JsonText) : JsValue :=
  match b with JSON_stringify v => v end.

Record Request : Type := mkRequest {
  url : string;
  method : string;
  headers : list (string * string);
  body : JsonText
}.

(** A response as the code observes it: its status, what [text()] resolves
    to and what [json()] resolves to ([None] when the body is not JSON). *)
Record Response : Type := mkResponse {
  status : Z;
  text : string;
  json : option JsValue
}.

Definition ok (r : Response) : bool :=
  ((200 <=? status r) && (status r <=? 299))%Z.

(** A console line, by the statement that writes it and the data it
    shows.  The success line of the two loggers is the same text, ending
    with the [logID] as rendered; their failure lines differ in wording, so
    each has its own. *)
Inductive ConsoleEntry : Type :=
| LogSentLine (logID : string)         (* console.log, "Log sent successfully: <logID>" *)
| LibLogFailedLine (e : JsError)       (* console.error, "Failed to send log:" *)
| StarterLogFailedLine (e : JsError)   (* console.error, "Failed to send log to server:" *)
| AuthOkLine                           (* console.log, "Authentication successful" *)
| AuthFailedLine (e : JsError).        (* console.error, "Authentication failed:" *)

Record World : Type := mkWorld {
  (* what a fetch settles to, given the fetches made before: the answer of
     the remote end, or a rejection when the request does not get through *)
  network : list Request -> Request -> Outcome Response;
  (* the successive readings of the clock, and the locale's rendering *)
  clock : nat -> Z;
  toLocaleTimeString : Z -> string;
  requests : list Request;   (* every call of fetch so far, oldest first *)
  console : list ConsoleEntry;
  ticks : nat                (* clock readings taken so far *)
}.

(** ** Computations: state and exceptions

    A computation runs in a state and either yields a value or throws; what
    it did to the state before throwing stays done. *)

Definition Eff (S A : Type) : Type := S -> Outcome A * S.

Definition ret {S A} (a : A) : Eff S A := fun s => (Fulfilled a, s).
Definition throw {S A} (e : JsError) : Eff S A := fun s => (Rejected e, s).
Definition settle {S A} (o : Outcome A) : Eff S A := fun s => (o, s).
Definition bind {S A B} (m : Eff S A) (k : A -> Eff S B) : Eff S B :=
  fun s =>
    match m s with
    | (Fulfilled a, s') => k a s'
    | (Rejected e, s') => (Rejected e, s')
    end.
Definition try_catch {S A} (m : Eff S A) (h : JsError -> Eff S A) : Eff S A :=
  fun s =>
    match m s with
    | (Fulfilled a, s') => (Fulfilled a, s')
    | (Rejected e, s') => h e s'
    end.
Definition try_finally {S A} (m : Eff S A) (f : Eff S unit) : Eff S A :=
  fun s =>
    match m s with
    | (o, s') =>
        match f s' with
        | (Fulfilled _, s'') => (o, s'')
        | (Rejected e, s'') => (Rejected e, s'')
        end
    end.
Definition when {S} (b : bool) (m : Eff S unit) : Eff S unit :=
  if b then m else ret tt.

Notation "x <- m ;; k" := (bind m (fun x => k))
  (at level 61, m at next level, right associativity).
Notation "m ;;; k" := (bind m (fun _ => k))
  (at level 61, right associativity).

Definition Async (A : Type) : Type := Eff World A.

Definition fetch (req : Request) : Async Response :=
  fun w => (network w (requests w) req,
            mkWorld (network w) (clock w) (toLocaleTimeString w)
                    (requests w ++ [req]) (console w) (ticks w)).

Definition console_write (l : ConsoleEntry) : Async unit :=
  fun w => (Fulfilled tt,
            mkWorld (network w) (clock w) (toLocaleTimeString w)
                    (requests w) (console w ++ [l]) (ticks w)).

Definition Date_now : Async Z :=
  fun w => (Fulfilled (clock w (ticks w)),
            mkWorld (network w) (clock w) (toLocaleTimeString w)
                    (requests w) (console w) (S (ticks w))).

Definition response_json (r : Response) : Async JsValue :=
  match json r with
  | Some v => ret v
  | None => throw (SyntaxError "Unexpected token in JSON")
  end.

Definition LogLevels : list string := ["debug"; "info"; "warn"; "error"; "fatal"].
Definition FrontendPackages : list string :=
  ["api"; "component"; "hook"; "page"; "state"; "style"; "auth"; "config";
   "middleware"; "utils"].

Record AuthCredentials : Type := mkCredentials {
  email : string;
  name : string;
  rollNo : string;
  accessCode : string;
  clientID : string;
  clientSecret : string
}.

Definition credentials_value (c : AuthCredentials) : JsValue :=
  JsObj [("email", JsStr (email c)); ("name", JsStr (name c));
         ("rollNo", JsStr (rollNo c)); ("accessCode", JsStr (accessCode c));
         ("clientID", JsStr (clientID c)); ("clientSecret", JsStr (clientSecret c))].

(** The object literal [{stack, level, package, message}]. *)
Definition LogRequest (level pkg : string) (message : JsValue) : JsValue :=
  JsObj [("stack", JsStr "frontend"); ("level", JsStr level);
         ("package", JsStr pkg); ("message", message)].

Record Logger : Type := mkLogger {
  debug : JsValue -> JsValue -> Async JsValue;
  info : JsValue -> JsValue -> Async JsValue;
  warn : JsValue -> JsValue -> Async JsValue;
  error : JsValue -> JsValue -> Async JsValue;
  fatal : JsValue -> JsValue -> Async JsValue
}.

(** ** [src/lib/logger.ts], the logger of the React demo *)
Module LibLogger.

Definition API_BASE_URL : string := "http://20.244.56.144/evaluation-service".
Definition AUTH_ENDPOINT : string := API_BASE_URL ++ "/auth".
Definition LOGS_ENDPOINT : string := API_BASE_URL ++ "/logs".

(** The call of [fetch]; its headers are built first, and rendering the
    token after "Bearer " may throw. *)
Definition logs_fetch (token : JsValue) (logRequest : JsValue) : Async Response :=
  bearer <- settle (to_string token) ;;
  fetch (mkRequest LOGS_ENDPOINT "POST"
           [("Content-Type", "application/json");
            ("Authorization", "Bearer " ++ bearer)]
           (JSON_stringify logRequest)).

Definition logToServer (token level pkg message : JsValue) : Async JsValue :=
  lvl <- settle (string_receiver "level.toLowerCase" level) ;;
  p <- settle (string_receiver "pkg.toLowerCase" pkg) ;;
  let logRequest := LogRequest (toLowerCase lvl) (toLowerCase p) message in
  try_catch
    (response <- logs_fetch token logRequest ;;
     when (negb (ok response))
       (throw (Error ("HTTP error! status: " ++ string_of_Z (status response)))) ;;;
     logResponse <- response_json response ;;
     logID <- settle (get_prop logResponse "logID") ;;
     shown <- settle (to_string logID) ;;
     console_write (LogSentLine shown) ;;;
     ret logResponse)
    (fun error => console_write (LibLogFailedLine error) ;;; throw error).

Definition authenticate (credentials : AuthCredentials) : Async JsValue :=
  try_catch
    (response <- fetch (mkRequest AUTH_ENDPOINT "POST"
                          [("Content-Type", "application/json")]
                          (JSON_stringify (credentials_value credentials))) ;;
     when (negb (ok response))
       (throw (Error ("Authentication failed! status: "
                      ++ string_of_Z (status response)))) ;;;
     authResponse <- response_json response ;;
     console_write AuthOkLine ;;;
     ret authResponse)
    (fun error => console_write (AuthFailedLine error) ;;; throw error).

Definition createLogger (token : JsValue) : Logger :=
  mkLogger
    (fun pkg message => logToServer token (JsStr "debug") pkg message)
    (fun pkg message => logToServer token (JsStr "info") pkg message)
    (fun pkg message => logToServer token (JsStr "warn") pkg message)
    (fun pkg message => logToServer token (JsStr "error") pkg message)
    (fun pkg message => logToServer token (JsStr "fatal") pkg message).

End LibLogger.

(** ** [starter-code/logger.ts], the standalone logger *)
Module StarterLogger.

Definition LOGS_ENDPOINT : string := "http://20.244.56.144/evaluation-service/logs".

(** The call of [fetch]; its headers are built first, and rendering the
    token after "Bearer " may throw. *)
Definition logs_fetch (token : JsValue) (logRequest : JsValue) : Async Response :=
  bearer <- settle (to_string token) ;;
  fetch (mkRequest LOGS_ENDPOINT "POST"
           [("Content-Type", "application/json");
            ("Authorization", "Bearer " ++ bearer)]
           (JSON_stringify logRequest)).

Definition logToServer (token level pkg message : JsValue) : Async JsValue :=
  when (negb (truthy token) || negb (is_string token))
    (throw (Error "Valid bearer token is required")) ;;;
  when (negb (truthy message) || negb (is_string message))
    (throw (Error "Log message is required")) ;;;
  lvl <- settle (string_receiver "level.toLowerCase" level) ;;
  p <- settle (string_receiver "pkg.toLowerCase" pkg) ;;
  m <- settle (string_receiver "message.trim" message) ;;
  let logRequest := LogRequest (toLowerCase lvl) (toLowerCase p) (JsStr (trim m)) in
  try_catch
    (response <- logs_fetch token logRequest ;;
     when (negb (ok response))
       (throw (Error ("HTTP " ++ string_of_Z (status response) ++ ": "
                      ++ text response))) ;;;
     logResponse <- response_json response ;;
     logID <- settle (get_prop logResponse "logID") ;;
     shown <- settle (to_string logID) ;;
     console_write (LogSentLine shown) ;;;
     ret logResponse)
    (fun error => console_write (StarterLogFailedLine error) ;;; throw error).

Definition createLogger (token : JsValue) : Logger :=
  mkLogger
    (fun pkg message => logToServer token (JsStr "debug") pkg message)
    (fun pkg message => logToServer token (JsStr "info") pkg message)
    (fun pkg message => logToServer token (JsStr "warn") pkg message)
    (fun pkg message => logToServer token (JsStr "error") pkg message)
    (fun pkg message => logToServer token (JsStr "fatal") pkg message).

End StarterLogger.

(** ** [src/components/LoggingDemo.tsx], the demo component *)
Module LoggingDemo.

Record LogEntry : Type := mkLogEntry {
  id : JsValue;
  timestamp : string;
  level : JsValue;
  package : JsValue;
  message : JsValue;
  status : string
}.

(** The three notices of the component.  [LogSentToast l] is the one whose
    description starts with [l] in upper case. *)
Inductive Toast : Type :=
| NoTokenToast
| LogSentToast (l : string)
| LogFailedToast.

Record State : Type := mkState {
  logs : list LogEntry;
  isLoading : option string;
  toasts : list Toast
}.

Definition initial : State := mkState [] None [].

Definition UI (A : Type) : Type := Eff (State * World) A.

Definition await {A} (m : Async A) : UI A :=
  fun s => match m (snd s) with (o, w') => (o, (fst s, w')) end.

Definition setLogs (f : list LogEntry -> list LogEntry) : UI unit :=
  fun s => (Fulfilled tt,
            (mkState (f (logs (fst s))) (isLoading (fst s)) (toasts (fst s)), snd s)).

Definition setIsLoading (k : option string) : UI unit :=
  fun s => (Fulfilled tt, (mkState (logs (fst s)) k (toasts (fst s)), snd s)).

Definition toast (t : Toast) : UI unit :=
  fun s => (Fulfilled tt,
            (mkState (logs (fst s)) (isLoading (fst s)) (toasts (fst s) ++ [t]), snd s)).

(** [new Date().toLocaleTimeString()] *)
Definition Date_toLocaleTimeString : UI string :=
  now <- await Date_now ;;
  fun s => (Fulfilled (toLocaleTimeString (snd s) now), s).

(** [.slice(0, 10)] *)
Definition slice_0_10 {A} (l : list A) : list A := firstn 10 l.

(** [sendLog] is a closure of the component; its level and package are
    the strings of the buttons that call it, so that the loading key and the
    notice are plain concatenations.  The token is the property the parent
    hands down, whatever value that is. *)
Definition sendLog (token : JsValue) (level pkg : string) (message : JsValue)
  : UI unit :=
  if negb (truthy token) then
    toast NoTokenToast
  else
    let logKey := level ++ "-" ++ pkg in
    setIsLoading (Some logKey) ;;;
    try_finally
      (try_catch
         (response <- await (LibLogger.logToServer token (JsStr level) (JsStr pkg)
                               message) ;;
          logID <- settle (get_prop response "logID") ;;
          time <- Date_toLocaleTimeString ;;
          let newLog :=
            mkLogEntry logID time (JsStr level) (JsStr pkg) message "success" in
          setLogs (fun prev => slice_0_10 (newLog :: prev)) ;;;
          toast (LogSentToast level))
         (fun _ =>
            now <- await Date_now ;;
            time <- Date_toLocaleTimeString ;;
            let newLog := mkLogEntry (JsStr ("error-" ++ string_of_Z now)) time
                                     (JsStr level) (JsStr pkg) message "error" in
            setLogs (fun prev => slice_0_10 (newLog :: prev)) ;;;
            toast LogFailedToast))
      (setIsLoading None).

(** The state of the component after a series of clicks, each with the
    token the component holds at that moment. *)
Record Click : Type := mkClick {
  click_token : JsValue;
  click_level : string;
  click_pkg : string;
  click_message : JsValue
}.

Fixpoint clicks (cs : list Click) (s : State * World) : State * World :=
  match cs with
  | [] => s
  | c :: rest =>
      clicks rest
        (snd (sendLog (click_token c) (click_level c) (click_pkg c)
                (click_message c) s))
  end.

End LoggingDemo.

(** ** What a computation puts on the wire *)

(** The requests that running [m] in [w] adds to the trace. *)
Definition sent {A} (m : Async A) (w : World) : list Request :=
  skipn (List.length (requests w)) (requests (snd (m w))).

Definition outbound_payloads {A} (m : Async A) (w : World) : list JsValue :=
  map (fun req => payload (body req)) (sent m w).

Definition outbound_messages {A} (m : Async A) (w : World) : list (option JsValue) :=
  map (field "message") (outbound_payloads m w).

Definition no_upper (s : string) : bool :=
  forallb (fun c => negb (is_upper c)) (list_ascii_of_string s).

(** Two spellings that differ in letter case only. *)
Definition same_ignoring_case (a b : string) : Prop :=
  toLowerCase a = toLowerCase b.

(** A token or message the standalone logger accepts. *)
Definition present (v : JsValue) : bool := truthy v && is_string v.

(** The success body of the auth endpoint, as [AuthResponse] declares it. *)
Definition AuthResponse (access_token : string) (expires_in : SafeInteger) : JsValue :=
  JsObj [("token_type", JsStr "Bearer"); ("access_token", JsStr access_token);
         ("expires_in", JsNum expires_in)].

Definition auth_request (c : AuthCredentials) : Request :=
  mkRequest LibLogger.AUTH_ENDPOINT "POST"
    [("Content-Type", "application/json")]
    (JSON_stringify (credentials_value c)).

(** The request of a log record, for a token that renders as [bearer]. *)
Definition logs_request (endpoint : string) (bearer : string) (logRequest : JsValue)
  : Request :=
  mkRequest endpoint "POST"
    [("Content-Type", "application/json");
     ("Authorization", "Bearer " ++ bearer)]
    (JSON_stringify logRequest).

(** Worlds used in the examples: a quiet trace and a remote end that gives
    one fixed answer. *)
Definition world_answering (a : Outcome Response) : World :=
  mkWorld (fun _ _ => a) (fun n => 1000 + Z.of_nat n)%Z
          (fun _ => "10:00:00 AM") [] [] 0.

(** A token or message that the standalone logger turns down. *)
Definition empty_or_not_a_string (v : JsValue) : Prop :=
  v = JsStr "" \/ is_string v = false.

(** Two computations that give the same outcome, the same world and the
    same payloads on the wire, whatever the world. *)
Definition same_call {A} (a b : Async A) : Prop :=
  forall w, a w = b w /\ outbound_payloads a w = outbound_payloads b w.

(** A record on the wire whose message is a non-empty string. *)
Definition message_non_empty (p : JsValue) : Prop :=
  exists m, field "message" p = Some (JsStr m) /\ m <> "".

(** The two answers used in the examples. *)
Definition unauthorized : Response := mkResponse 401 "Unauthorized" None.
Definition log_created : Response :=
  mkResponse 200 ""
    (Some (JsObj [("logID", JsStr "a4aad02e"); ("message", JsStr "log created successfully")])).

(** A component that already shows ten entries. *)
Definition old_entry : LoggingDemo.LogEntry :=
  LoggingDemo.mkLogEntry (JsStr "old") "09:00:00 AM" (JsStr "debug") (JsStr "utils")
    (JsStr "earlier") "success".
Definition full_list : LoggingDemo.State :=
  LoggingDemo.mkState (repeat old_entry 10) None [].

(** [output] is [input] in lower case, said without [toLowerCase]: the same
    length and, place by place, the letter 32 code points up for the capital
    letters (A to Z, and the capital letters of Latin-1, which are 192 to 222
    but for the multiplication sign 215), the same character otherwise. *)
Definition lowered (input output : string) : Prop :=
  String.length output = String.length input /\
  forall i c,
    String.get i input = Some c ->
    String.get i output =
    Some (let n := N_of_ascii c in
          if (((65 <=? n) && (n <=? 90)) ||
              ((192 <=? n) && (n <=? 222) && negb (n =? 215)))%N
          then ascii_of_N (n + 32) else c).

(** The text of a token after "Bearer ", for a token that has one. *)
Definition bearer_of (token : JsValue) : string :=
  match to_string token with
  | Fulfilled bearer => bearer
  | Rejected _ => ""
  end.

(** A value no template literal can render. *)
Definition unrenderable : JsValue := JsObj [("toString", JsBool true)].
Definition seconds_3600 : SafeInteger := mkSafe 3600 eq_refl.

(** The payload fields every log record must carry. *)
Definition canonical_fields (level pkg : string) (p : JsValue) : Prop :=
  field "stack" p = Some (JsStr "frontend") /\
  field "level" p = Some (JsStr (toLowerCase level)) /\
  field "package" p = Some (JsStr (toLowerCase pkg)).

(** ** What a computation writes and asks for *)

(** The console lines that running [m] in [w] adds. *)
Definition printed {A} (m : Async A) (w : World) : list ConsoleEntry :=
  skipn (List.length (console w)) (console (snd (m w))).

(** The [logID] of an acknowledgment, as a template literal renders it. *)
Definition shown_logID (ack : JsValue) : string :=
  match get_prop ack "logID" with
  | Fulfilled i =>
      match to_string i with
      | Fulfilled t => t
      | Rejected _ => ""
      end
  | Rejected _ => ""
  end.

(** The line [logToServer] writes for an outcome: the success line with the
    [logID] it read, or its failure line with the error it rethrows. *)
Definition lib_line_of (o : Outcome JsValue) : ConsoleEntry :=
  match o with
  | Fulfilled ack => LogSentLine (shown_logID ack)
  | Rejected e => LibLogFailedLine e
  end.

Definition starter_line_of (o : Outcome JsValue) : ConsoleEntry :=
  match o with
  | Fulfilled ack => LogSentLine (shown_logID ack)
  | Rejected e => StarterLogFailedLine e
  end.

Definition auth_line_of (o : Outcome JsValue) : ConsoleEntry :=
  match o with
  | Fulfilled _ => AuthOkLine
  | Rejected e => AuthFailedLine e
  end.

(** The fetches a call of [logToServer] makes, read off its arguments. *)
Definition lib_requests (token level pkg message : JsValue) : list Request :=
  match level, pkg, to_string token with
  | JsStr l, JsStr p, Fulfilled bearer =>
      [logs_request LibLogger.LOGS_ENDPOINT bearer
         (LogRequest (toLowerCase l) (toLowerCase p) message)]
  | _, _, _ => []
  end.

Definition starter_requests (token level pkg message : JsValue) : list Request :=
  if present token && present message then
    match level, pkg, message, token with
    | JsStr l, JsStr p, JsStr m, JsStr bearer =>
        [logs_request StarterLogger.LOGS_ENDPOINT bearer
           (LogRequest (toLowerCase l) (toLowerCase p) (JsStr (trim m)))]
    | _, _, _, _ => []
    end
  else [].

(** A request of the log sender: a POST to the logs endpoint. *)
Definition is_log_post (req : Request) : Prop :=
  url req = "http://20.244.56.144/evaluation-service/logs" /\ method req = "POST".

Fixpoint all_space (s : string) : bool :=
  match s with
  | EmptyString => true
  | String c r => is_space c && all_space r
  end.

Definition starts_with_space (s : string) : bool :=
  match s with
  | EmptyString => false
  | String c _ => is_space c
  end.

Fixpoint ends_with_space (s : string) : bool :=
  match s with
  | EmptyString => false
  | String c EmptyString => is_space c
  | String _ r => ends_with_space r
  end.

Definition logger_methods (l : Logger) : list (JsValue -> JsValue -> Async JsValue) :=
  [debug l; info l; warn l; error l; fatal l].

(** The world after one more reading of the clock. *)
Definition ticked (w : World) : World := snd (Date_now w).

(** What a click of the demo that goes through leaves behind, read off the
    outcome of the call of [logToServer] and the world it left. *)
Definition after_click (level pkg : string) (message : JsValue)
    (st : LoggingDemo.State) (o : Outcome JsValue) (w1 : World)
  : LoggingDemo.State * World :=
  match o with
  | Fulfilled ack =>
      (LoggingDemo.mkState
         (LoggingDemo.slice_0_10
            (LoggingDemo.mkLogEntry
               (match get_prop ack "logID" with
                | Fulfilled i => i
                | Rejected _ => JsUndefined
                end)
               (toLocaleTimeString w1 (clock w1 (ticks w1)))
               (JsStr level) (JsStr pkg) message "success" :: LoggingDemo.logs st))
         None
         (LoggingDemo.toasts st ++ [LoggingDemo.LogSentToast level]),
       ticked w1)
  | Rejected _ =>
      (LoggingDemo.mkState
         (LoggingDemo.slice_0_10
            (LoggingDemo.mkLogEntry
               (JsStr ("error-" ++ string_of_Z (clock w1 (ticks w1))))
               (toLocaleTimeString w1 (clock w1 (S (ticks w1))))
               (JsStr level) (JsStr pkg) message "error" :: LoggingDemo.logs st))
         None
         (LoggingDemo.toasts st ++ [LoggingDemo.LogFailedToast]),
       ticked (ticked w1))
  end.

(** ** [src/components/AuthSection.tsx], the credentials form *)
Module AuthSection.

(** [keyof AuthCredentials] *)
Inductive CredentialKey : Type :=
| Key_email
| Key_name
| Key_rollNo
| Key_accessCode
| Key_clientID
| Key_clientSecret.

Inductive Toast : Type :=
| AuthOkToast
| AuthFailedToast.

Record State : Type := mkState {
  credentials : AuthCredentials;
  isLoading : bool;
  toasts : list Toast
}.

Definition initial : State := mkState (mkCredentials "" "" "" "" "" "") false [].

Definition getField (field : CredentialKey) (c : AuthCredentials) : string :=
  match field with
  | Key_email => email c
  | Key_name => name c
  | Key_rollNo => rollNo c
  | Key_accessCode => accessCode c
  | Key_clientID => clientID c
  | Key_clientSecret => clientSecret c
  end.

(** [{ ...prev, [field]: value }] *)
Definition setField (field : CredentialKey) (value : string) (prev : AuthCredentials)
  : AuthCredentials :=
  match field with
  | Key_email =>
      mkCredentials value (name prev) (rollNo prev) (accessCode prev)
        (clientID prev) (clientSecret prev)
  | Key_name =>
      mkCredentials (email prev) value (rollNo prev) (accessCode prev)
        (clientID prev) (clientSecret prev)
  | Key_rollNo =>
      mkCredentials (email prev) (name prev) value (accessCode prev)
        (clientID prev) (clientSecret prev)
  | Key_accessCode =>
      mkCredentials (email prev) (name prev) (rollNo prev) value
        (clientID prev) (clientSecret prev)
  | Key_clientID =>
      mkCredentials (email prev) (name prev) (rollNo prev) (accessCode prev)
        value (clientSecret prev)
  | Key_clientSecret =>
      mkCredentials (email prev) (name prev) (rollNo prev) (accessCode prev)
        (clientID prev) value
  end.

Definition handleInputChange (field : CredentialKey) (value : string) (st : State)
  : State :=
  mkState (setField field value (credentials st)) (isLoading st) (toasts st).

Section Props.

(** The state of the parent and the [onAuthSuccess] it hands down. *)
Variable P : Type.
Variable onAuthSuccess : JsValue -> Eff P unit.

Definition UI (A : Type) : Type := Eff (State * P * World) A.

Definition await {A} (m : Async A) : UI A :=
  fun s => match m (snd s) with (o, w') => (o, (fst s, w')) end.

Definition parent {A} (m : Eff P A) : UI A :=
  fun s => match m (snd (fst s)) with (o, p') => (o, ((fst (fst s), p'), snd s)) end.

Definition setIsLoading (b : bool) : UI unit :=
  fun s => (Fulfilled tt,
            ((mkState (credentials (fst (fst s))) b (toasts (fst (fst s))),
              snd (fst s)), snd s)).

Definition toast (t : Toast) : UI unit :=
  fun s => (Fulfilled tt,
            ((mkState (credentials (fst (fst s))) (isLoading (fst (fst s)))
                (toasts (fst (fst s)) ++ [t]),
              snd (fst s)), snd s)).

Definition handleAuthenticate : UI unit :=
  setIsLoading true ;;;
  try_finally
    (try_catch
       (response <- (fun s => await (LibLogger.authenticate (credentials (fst (fst s)))) s) ;;
        access_token <- settle (get_prop response "access_token") ;;
        parent (onAuthSuccess access_token) ;;;
        toast AuthOkToast)
       (fun _ => toast AuthFailedToast))
    (setIsLoading false).

(** [disabled={isLoading || !credentials.email}] *)
Definition disabled (st : State) : bool :=
  isLoading st || (email (credentials st) =? "").

(** A click on the button: there is none once [isAuthenticated], and a
    disabled one does nothing. *)
Definition onClick (isAuthenticated : bool) : UI unit :=
  fun s =>
    if isAuthenticated || disabled (fst (fst s)) then (Fulfilled tt, s)
    else handleAuthenticate s.

End Props.

End AuthSection.

(** ** The buttons of [LoggingDemo.tsx] *)
Module DemoButtons.

Record LogExample : Type := mkExample {
  level : string;
  package : string;
  message : string
}.

Definition LOG_EXAMPLES : list LogExample :=
  [mkExample "debug" "utils" "Debug trace: Processing user input validation";
   mkExample "info" "component" "User interface rendered successfully";
   mkExample "warn" "api" "API response time exceeded 2 seconds";
   mkExample "error" "auth" "Failed to refresh authentication token";
   mkExample "fatal" "page" "Critical error: Application crashed unexpectedly"].

(** [disabled={!token || isLoading === `${example.level}-${example.package}`}] *)
Definition disabled (token : JsValue) (st : LoggingDemo.State) (example : LogExample)
  : bool :=
  negb (truthy token) ||
  match LoggingDemo.isLoading st with
  | Some k => k =? level example ++ "-" ++ package example
  | None => false
  end.

(** A click on the button of the example at [index]. *)
Definition onClick (token : JsValue) (index : nat) : LoggingDemo.UI unit :=
  fun s =>
    match nth_error LOG_EXAMPLES index with
    | None => (Fulfilled tt, s)
    | Some example =>
        if disabled token (fst s) example then (Fulfilled tt, s)
        else LoggingDemo.sendLog token (level example) (package example)
               (JsStr (message example)) s
    end.

End DemoButtons.

(** ** [src/pages/Index.tsx], the page that holds the token *)
Module Index.

Record State : Type := mkState {
  token : JsValue;
  isAuthenticated : bool
}.

Definition initial : State := mkState JsNull false.

Definition handleAuthSuccess (authToken : JsValue) : Eff State unit :=
  fun _ => (Fulfilled tt, mkState authToken true).

(** The page with its two children. *)
Record Page : Type := mkPage {
  index : State;
  auth : AuthSection.State;
  demo : LoggingDemo.State
}.

Definition start : Page := mkPage initial AuthSection.initial LoggingDemo.initial.

(** What the user does; the page handles one event at a time, each to its
    end. *)
Inductive Event : Type :=
| TypeInto (field : AuthSection.CredentialKey) (value : string)
| ClickAuthenticate
| ClickExample (i : nat).

Definition step (ev : Event) (s : Page * World) : Page * World :=
  let pg := fst s in
  match ev with
  | TypeInto field value =>
      (* the inputs are not rendered once [isAuthenticated] *)
      if isAuthenticated (index pg) then s
      else (mkPage (index pg) (AuthSection.handleInputChange field value (auth pg))
              (demo pg),
            snd s)
  | ClickAuthenticate =>
      match AuthSection.onClick State handleAuthSuccess (isAuthenticated (index pg))
              ((auth pg, index pg), snd s) with
      | (_, ((a, i), w')) => (mkPage i a (demo pg), w')
      end
  | ClickExample n =>
      match DemoButtons.onClick (token (index pg)) n (demo pg, snd s) with
      | (_, (d, w')) => (mkPage (index pg) (auth pg) d, w')
      end
  end.

Fixpoint run (evs : list Event) (s : Page * World) : Page * World :=
  match evs with
  | [] => s
  | ev :: rest => run rest (step ev s)
  end.

End Index.

(** ** [starter-code/page.tsx], the page of the starter code

    The page imports [logToServer] from a module outside the files at hand
    and renders a date with the platform's [toISOString]; both are taken as
    parameters.  The lines the page itself writes to the console are kept
    in its state, apart from those of the logger. *)
Module HomePage.

(** [new Error(`Authentication failed: ${response.status}`)] *)
Definition auth_failed (response : Response) : JsError :=
  Error ("Authentication failed: " ++ string_of_Z (status response)).

Record LogEntry : Type := mkLogEntry {
  id : string;
  timestamp : string;
  level : JsValue;
  package : JsValue;
  message : JsValue;
  status : string
}.

Inductive PageLine : Type :=
| AuthErrorLine (e : JsError)          (* console.error, authentication *)
| LogSentPageLine (response : JsValue) (* console.log, log sent *)
| LogFailedPageLine (e : JsError).     (* console.error, log failed *)

Record State : Type := mkState {
  token : JsValue;
  isAuthenticated : bool;
  isAuthenticating : bool;
  logs : list LogEntry;
  isLoading : bool;
  alerts : list string;
  page_console : list PageLine
}.

Definition initial : State := mkState JsNull false false [] false [] [].

(** The six variables of [process.env] the page reads. *)
Record Env : Type := mkEnv {
  NEXT_PUBLIC_EMAIL : JsValue;
  NEXT_PUBLIC_NAME : JsValue;
  NEXT_PUBLIC_ROLL_NO : JsValue;
  NEXT_PUBLIC_ACCESS_CODE : JsValue;
  NEXT_PUBLIC_CLIENT_ID : JsValue;
  NEXT_PUBLIC_CLIENT_SECRET : JsValue
}.

Definition credentials_of (env : Env) : JsValue :=
  JsObj [("email", NEXT_PUBLIC_EMAIL env); ("name", NEXT_PUBLIC_NAME env);
         ("rollNo", NEXT_PUBLIC_ROLL_NO env);
         ("accessCode", NEXT_PUBLIC_ACCESS_CODE env);
         ("clientID", NEXT_PUBLIC_CLIENT_ID env);
         ("clientSecret", NEXT_PUBLIC_CLIENT_SECRET env)].

Definition auth_fetch (env : Env) : Request :=
  mkRequest "http://20.244.56.144/evaluation-service/auth" "POST"
    [("Content-Type", "application/json")]
    (JSON_stringify (credentials_of env)).

Definition UI (A : Type) : Type := Eff (State * World) A.

Definition await {A} (m : Async A) : UI A :=
  fun s => match m (snd s) with (o, w') => (o, (fst s, w')) end.

Definition update (f : State -> State) : UI unit :=
  fun s => (Fulfilled tt, (f (fst s), snd s)).

Definition setToken (v : JsValue) : UI unit :=
  update (fun st => mkState v (isAuthenticated st) (isAuthenticating st) (logs st)
                      (isLoading st) (alerts st) (page_console st)).
Definition setIsAuthenticated (b : bool) : UI unit :=
  update (fun st => mkState (token st) b (isAuthenticating st) (logs st)
                      (isLoading st) (alerts st) (page_console st)).
Definition setIsAuthenticating (b : bool) : UI unit :=
  update (fun st => mkState (token st) (isAuthenticated st) b (logs st)
                      (isLoading st) (alerts st) (page_console st)).
Definition setLogs (f : list LogEntry -> list LogEntry) : UI unit :=
  update (fun st => mkState (token st) (isAuthenticated st) (isAuthenticating st)
                      (f (logs st)) (isLoading st) (alerts st) (page_console st)).
Definition setIsLoading (b : bool) : UI unit :=
  update (fun st => mkState (token st) (isAuthenticated st) (isAuthenticating st)
                      (logs st) b (alerts st) (page_console st)).
Definition alert (text : string) : UI unit :=
  update (fun st => mkState (token st) (isAuthenticated st) (isAuthenticating st)
                      (logs st) (isLoading st) (alerts st ++ [text]) (page_console st)).
Definition console_page (l : PageLine) : UI unit :=
  update (fun st => mkState (token st) (isAuthenticated st) (isAuthenticating st)
                      (logs st) (isLoading st) (alerts st) (page_console st ++ [l])).

(** [logEntry.status = 'error'] *)
Definition with_status (st : string) (e : LogEntry) : LogEntry :=
  mkLogEntry (id e) (timestamp e) (level e) (package e) (message e) st.

Section Imports.

Variable logToServer : JsValue -> JsValue -> JsValue -> JsValue -> Async JsValue.
Variable toISOString : Z -> string.

Definition authenticate (env : Env) : UI unit :=
  setIsAuthenticating true ;;;
  try_finally
    (try_catch
       (response <- await (fetch (auth_fetch env)) ;;
        when (negb (ok response))
          (throw (auth_failed response)) ;;;
        authResponse <- await (response_json response) ;;
        access_token <- settle (get_prop authResponse "access_token") ;;
        setToken access_token ;;;
        setIsAuthenticated true ;;;
        access_token <- settle (get_prop authResponse "access_token") ;;
        await (logToServer access_token (JsStr "info") (JsStr "auth")
                 (JsStr "User successfully authenticated")) ;;;
        ret tt)
       (fun error =>
          console_page (AuthErrorLine error) ;;;
          alert "Authentication failed. Please check your credentials."))
    (setIsAuthenticating false).

Definition sendLog (level pkg message : JsValue) : UI unit :=
  fun s =>
    let token := token (fst s) in
    if negb (truthy token) then
      alert "Please authenticate first" s
    else
      (setIsLoading true ;;;
       now <- await Date_now ;;
       time <- await Date_now ;;
       let logEntry :=
         mkLogEntry (string_of_Z now) (toISOString time) level pkg message "success" in
       try_finally
         (try_catch
            (response <- await (logToServer token level pkg message) ;;
             console_page (LogSentPageLine response) ;;;
             setLogs (fun prev => firstn 10 (logEntry :: prev)))
            (fun error =>
               console_page (LogFailedPageLine error) ;;;
               setLogs (fun prev => firstn 10 (with_status "error" logEntry :: prev))))
         (setIsLoading false)) s.

End Imports.

End HomePage.

(** The error the starter page catches when the auth endpoint does not
    answer 2xx: the rejection of the fetch, or the error made of the status. *)
Definition auth_refusal (o : Outcome Response) : JsError :=
  match o with
  | Rejected e => e
  | Fulfilled r => HomePage.auth_failed r
  end.

(** A request the page may make: the exchange of credentials that have an
    email, or a log record within the closed enumerations, with a message
    that is not empty. *)
Definition page_request (req : Request) : Prop :=
  (exists c, req = auth_request c /\ email c <> "") \/
  (is_log_post req /\
   exists lvl cat msg,
     In lvl LogLevels /\ In cat FrontendPackages /\ msg <> "" /\
     payload (body req) = LogRequest lvl cat (JsStr msg)).

Definition is_auth_request (req : Request) : Prop :=
  exists c, req = auth_request c.

(** What holds of the page and of the requests [l] it has made so far. *)
Definition page_inv (s : Index.Page * World) (l : list Request) : Prop :=
  Forall page_request l /\
  (Index.isAuthenticated (Index.index (fst s)) = false ->
   Index.token (Index.index (fst s)) = JsNull /\ Forall is_auth_request l).

(** * Properties *)

(** ** Strings *)

Lemma lower_char_not_upper (c : ascii) : is_upper (lower_char c) = false.
Proof.
  destruct c as [[] [] [] [] [] [] [] []]; vm_compute; reflexivity.
Qed.

Lemma toLowerCase_no_upper (s : string) : no_upper (toLowerCase s) = true.
Proof.
  unfold no_upper.
  induction s as [|c r IH]; simpl; [reflexivity|].
  rewrite lower_char_not_upper. exact IH.
Qed.

Lemma lower_char_fixed (c : ascii) : is_upper c = false -> lower_char c = c.
Proof. unfold lower_char. intros ->. reflexivity. Qed.

Lemma toLowerCase_idempotent (s : string) :
  toLowerCase (toLowerCase s) = toLowerCase s.
Proof.
  induction s as [|c r IH]; simpl; [reflexivity|].
  rewrite IH, (lower_char_fixed _ (lower_char_not_upper c)). reflexivity.
Qed.

Lemma trimEnd_idempotent (s : string) : trimEnd (trimEnd s) = trimEnd s.
Proof.
  induction s as [|c r IH]; simpl; [reflexivity|].
  destruct (trimEnd r) as [|a b] eqn:E.
  - destruct (is_space c) eqn:Hc; simpl; [reflexivity|]. rewrite Hc. reflexivity.
  - simpl in IH |- *. rewrite IH. reflexivity.
Qed.

Lemma trimStart_head (s : string) :
  trimStart s = "" \/
  exists c r, trimStart s = String c r /\ is_space c = false.
Proof.
  induction s as [|c r IH]; simpl; [left; reflexivity|].
  destruct (is_space c) eqn:Hc; [exact IH|].
  right. exists c, r. split; [reflexivity | exact Hc].
Qed.

Lemma trimEnd_keeps_head (c : ascii) (r : string) :
  is_space c = false -> exists r', trimEnd (String c r) = String c r'.
Proof.
  intros Hc. simpl. destruct (trimEnd r) as [|a b].
  - rewrite Hc. exists "". reflexivity.
  - exists (String a b). reflexivity.
Qed.

Lemma trim_idempotent (s : string) : trim (trim s) = trim s.
Proof.
  unfold trim.
  destruct (trimStart_head s) as [E | (c & r & E & Hc)]; rewrite E.
  - reflexivity.
  - destruct (trimEnd_keeps_head c r Hc) as (r' & E').
    assert (St : trimStart (trimEnd (String c r)) = trimEnd (String c r)).
    { rewrite E'. simpl. rewrite Hc. reflexivity. }
    rewrite St. apply trimEnd_idempotent.
Qed.

Lemma trim_nonempty_input (s : string) : trim s <> "" -> s <> "".
Proof. intros H E. apply H. rewrite E. reflexivity. Qed.

Lemma eqb_empty_false (s : string) : s <> "" -> (s =? "") = false.
Proof. intros H. apply String.eqb_neq. exact H. Qed.

(** ** The trace *)

Lemma skipn_past {A} (l l' : list A) : skipn (List.length l) (l ++ l')%list = l'.
Proof. induction l as [|x l IH]; simpl; [reflexivity | exact IH]. Qed.

Lemma skipn_all_of {A} (l : list A) : skipn (List.length l) l = [].
Proof. induction l as [|x l IH]; simpl; [reflexivity | exact IH]. Qed.

Ltac run :=
  unfold LibLogger.logToServer, StarterLogger.logToServer, LibLogger.authenticate,
    LibLogger.logs_fetch, StarterLogger.logs_fetch, response_json,
    try_catch, try_finally, bind, when, settle, ret, throw, fetch, console_write;
  simpl.

Ltac after_fetch :=
  match goal with
  | |- context [network ?w (requests ?w) ?req] =>
      destruct (network w (requests w) req) as [?r|?e]; simpl;
      [ destruct (ok r); simpl;
        [ destruct (json r) as [?v|]; simpl;
          [ destruct (get_prop v "logID") as [?i|?e]; simpl;
            [ destruct (to_string i); simpl |]
          |]
        |]
      |]
  end.

Lemma lib_sent (token message : JsValue) (level pkg : string) (w : World) :
  sent (LibLogger.logToServer token (JsStr level) (JsStr pkg) message) w =
  match to_string token with
  | Fulfilled bearer =>
      [logs_request LibLogger.LOGS_ENDPOINT bearer
         (LogRequest (toLowerCase level) (toLowerCase pkg) message)]
  | Rejected _ => []
  end.
Proof.
  unfold sent, logs_request. run.
  destruct (to_string token) as [bearer|e]; simpl; [|apply skipn_all_of].
  after_fetch; apply skipn_past.
Qed.

Lemma present_string (v : JsValue) :
  present v = true -> exists m, v = JsStr m /\ m <> "".
Proof.
  unfold present. destruct v; simpl; try (rewrite andb_false_r; discriminate);
    try discriminate.
  intros H. exists s. split; [reflexivity|].
  intros ->. discriminate.
Qed.

Lemma present_bearer (token : JsValue) :
  present token = true -> to_string token = Fulfilled (bearer_of token).
Proof.
  intros H. destruct (present_string _ H) as (t & -> & _). reflexivity.
Qed.

Lemma starter_sent (token : JsValue) (level pkg m : string) (w : World) :
  present token = true -> m <> "" ->
  sent (StarterLogger.logToServer token (JsStr level) (JsStr pkg) (JsStr m)) w =
  [logs_request StarterLogger.LOGS_ENDPOINT (bearer_of token)
     (LogRequest (toLowerCase level) (toLowerCase pkg) (JsStr (trim m)))].
Proof.
  intros Ht Hm. destruct (present_string _ Ht) as (t & -> & Hne).
  unfold sent, logs_request, bearer_of. run.
  rewrite (eqb_empty_false t Hne), (eqb_empty_false m Hm). simpl.
  after_fetch; apply skipn_past.
Qed.

Lemma starter_rejects_locally (token level pkg message : JsValue) (w : World) :
  present token && present message = false ->
  StarterLogger.logToServer token level pkg message w =
  (Rejected (Error (if present token then "Log message is required"
                    else "Valid bearer token is required")), w).
Proof.
  unfold present. intros H. run.
  destruct (truthy token), (is_string token); simpl in *; try reflexivity.
  destruct (truthy message), (is_string message); simpl in *;
    try reflexivity; discriminate.
Qed.

Lemma not_present (v : JsValue) :
  empty_or_not_a_string v -> present v = false.
Proof.
  unfold present. intros [-> | H]; [reflexivity|].
  rewrite H. apply andb_false_r.
Qed.

Lemma starter_sent_nothing (token level pkg message : JsValue) (w : World) :
  present token && present message = false ->
  sent (StarterLogger.logToServer token level pkg message) w = [].
Proof.
  intros H. unfold sent. rewrite (starter_rejects_locally _ _ _ _ _ H).
  simpl. apply skipn_all_of.
Qed.

Lemma canonical_LogRequest (level pkg : string) (message : JsValue) :
  canonical_fields level pkg
    (LogRequest (toLowerCase level) (toLowerCase pkg) message).
Proof. repeat split. Qed.

(** ** The log sender *)

Lemma toLowerCase_length (s : string) :
  String.length (toLowerCase s) = String.length s.
Proof. induction s as [|c r IH]; simpl; [reflexivity | rewrite IH; reflexivity]. Qed.

Lemma toLowerCase_lowered (s : string) : lowered s (toLowerCase s).
Proof.
  split; [apply toLowerCase_length|].
  induction s as [|a r IH]; intros i c H; [destruct i; discriminate|].
  destruct i as [|i]; simpl in H |- *.
  - injection H as <-. reflexivity.
  - apply IH. exact H.
Qed.

(** C1: whatever the token, level, package tag and message, the payload that
    [logToServer] hands to [fetch], in either variant, has [stack] equal to
    "frontend" and carries the level and the package in lower case: letter
    by letter the capital letters are replaced by their small forms and
    nothing else changes, so that "ERROR" and "API" go out as "error" and
    "api".  The library variant sends that payload whenever the token can be
    put after "Bearer ", the standalone one whenever the token and the
    message pass its local check. *)
Theorem logToServer_payload_lowercased
    (token message : JsValue) (level pkg : string) (w : World) :
  exists lvl cat,
    lowered level lvl /\ lowered pkg cat /\
    no_upper lvl = true /\ no_upper cat = true /\
    outbound_payloads
      (LibLogger.logToServer token (JsStr level) (JsStr pkg) message) w =
      match to_string token with
      | Fulfilled _ =>
          [JsObj [("stack", JsStr "frontend"); ("level", JsStr lvl);
                  ("package", JsStr cat); ("message", message)]]
      | Rejected _ => []
      end /\
    (exists p,
        outbound_payloads
          (StarterLogger.logToServer token (JsStr level) (JsStr pkg) message) w =
          (if present token && present message then [p] else []) /\
        field "stack" p = Some (JsStr "frontend") /\
        field "level" p = Some (JsStr lvl) /\
        field "package" p = Some (JsStr cat)) /\
    outbound_payloads
      (LibLogger.logToServer token (JsStr "ERROR") (JsStr "API") message) w =
      match to_string token with
      | Fulfilled _ =>
          [JsObj [("stack", JsStr "frontend"); ("level", JsStr "error");
                  ("package", JsStr "api"); ("message", message)]]
      | Rejected _ => []
      end /\
    (exists p,
        outbound_payloads
          (StarterLogger.logToServer token (JsStr "ERROR") (JsStr "API") message) w =
          (if present token && present message then [p] else []) /\
        field "stack" p = Some (JsStr "frontend") /\
        field "level" p = Some (JsStr "error") /\
        field "package" p = Some (JsStr "api")).
Proof.
  assert (Hlib : forall l c,
             outbound_payloads
               (LibLogger.logToServer token (JsStr l) (JsStr c) message) w =
             match to_string token with
             | Fulfilled _ =>
                 [JsObj [("stack", JsStr "frontend"); ("level", JsStr (toLowerCase l));
                         ("package", JsStr (toLowerCase c)); ("message", message)]]
             | Rejected _ => []
             end).
  { intros l c. unfold outbound_payloads. rewrite lib_sent.
    destruct (to_string token); reflexivity. }
  assert (Hst : forall l c,
             exists p,
               outbound_payloads
                 (StarterLogger.logToServer token (JsStr l) (JsStr c) message) w =
               (if present token && present message then [p] else []) /\
               field "stack" p = Some (JsStr "frontend") /\
               field "level" p = Some (JsStr (toLowerCase l)) /\
               field "package" p = Some (JsStr (toLowerCase c))).
  { intros l c. unfold outbound_payloads.
    destruct (present token && present message) eqn:H.
    - apply andb_prop in H. destruct H as [Ht Hm].
      destruct (present_string _ Hm) as (m & -> & Hne).
      eexists. rewrite (starter_sent _ _ _ _ _ Ht Hne). simpl.
      split; [reflexivity | repeat split].
    - exists (LogRequest (toLowerCase l) (toLowerCase c) message).
      rewrite (starter_sent_nothing _ _ _ _ _ H).
      split; [reflexivity | repeat split]. }
  exists (toLowerCase level), (toLowerCase pkg).
  split; [apply toLowerCase_lowered|]. split; [apply toLowerCase_lowered|].
  split; [apply toLowerCase_no_upper|]. split; [apply toLowerCase_no_upper|].
  split; [apply Hlib|]. split; [apply Hst|].
  split; [apply (Hlib "ERROR" "API") | apply (Hst "ERROR" "API")].
Qed.

Lemma logToServer_payload_lowercased_witness :
  outbound_payloads
    (LibLogger.logToServer (JsStr "t") (JsStr "ERROR") (JsStr "API") (JsStr "m"))
    (world_answering (Rejected (TypeError "Failed to fetch"))) =
    [JsObj [("stack", JsStr "frontend"); ("level", JsStr "error");
            ("package", JsStr "api"); ("message", JsStr "m")]] /\
  exists p,
    outbound_payloads
      (StarterLogger.logToServer (JsStr "t") (JsStr "ERROR") (JsStr "API") (JsStr "m"))
      (world_answering (Rejected (TypeError "Failed to fetch"))) = [p] /\
    field "stack" p = Some (JsStr "frontend") /\
    field "level" p = Some (JsStr "error") /\
    field "package" p = Some (JsStr "api").
Proof.
  destruct (logToServer_payload_lowercased (JsStr "t") (JsStr "m") "ERROR" "API"
              (world_answering (Rejected (TypeError "Failed to fetch"))))
    as (lvl & cat & _ & _ & _ & _ & _ & _ & Hlib & Hst).
  split; [exact Hlib | exact Hst].
Defined.

Example payload_of_ERROR_API :
  outbound_payloads
    (LibLogger.logToServer (JsStr "t") (JsStr "ERROR") (JsStr "API") (JsStr "m"))
    (world_answering (Rejected (TypeError "Failed to fetch"))) =
  [LogRequest "error" "api" (JsStr "m")] /\
  outbound_payloads
    (StarterLogger.logToServer (JsStr "t") (JsStr "ERROR") (JsStr "API") (JsStr "m"))
    (world_answering (Rejected (TypeError "Failed to fetch"))) =
  [LogRequest "error" "api" (JsStr "m")].
Proof. split; vm_compute; reflexivity. Qed.

(** Only the lower-case form of the level and of the package is used. *)
Lemma logToServer_ignores_case
    (token message : JsValue) (level level' pkg pkg' : string) (w : World) :
  same_ignoring_case level level' -> same_ignoring_case pkg pkg' ->
  LibLogger.logToServer token (JsStr level) (JsStr pkg) message w =
    LibLogger.logToServer token (JsStr level') (JsStr pkg') message w /\
  StarterLogger.logToServer token (JsStr level) (JsStr pkg) message w =
    StarterLogger.logToServer token (JsStr level') (JsStr pkg') message w.
Proof.
  unfold same_ignoring_case. intros El Ep. split.
  - run. rewrite El, Ep. reflexivity.
  - run. rewrite El, Ep. reflexivity.
Qed.

Example canonical_spelling_is_kept :
  toLowerCase (toLowerCase "Middleware") = "middleware" /\
  same_ignoring_case "FATAL" "fatal".
Proof. rewrite toLowerCase_idempotent. split; reflexivity. Qed.

Lemma lib_unrenderable_token
    (token message : JsValue) (level pkg : string) (w : World) (e : JsError) :
  to_string token = Rejected e ->
  fst (LibLogger.logToServer token (JsStr level) (JsStr pkg) message w) = Rejected e /\
  requests (snd (LibLogger.logToServer token (JsStr level) (JsStr pkg) message w)) =
    requests w.
Proof. intros H. run. rewrite H. split; reflexivity. Qed.

(** C4: the standalone [logToServer] throws its own error and leaves the
    world as it was (no request) when the token or the message is empty or
    not a string; the library variant has no such check: it hands to [fetch]
    whatever message it is given, with the token put as it is after
    "Bearer ", an empty token included, and fails before the fetch only
    where that text cannot be made, with the error of the rendering; in
    both, any strings pass as level and package. *)
Theorem logToServer_local_validation
    (token message : JsValue) (level pkg : string) (w : World) :
  (empty_or_not_a_string token \/ empty_or_not_a_string message ->
   forall lv pk : JsValue,
   exists msg,
     StarterLogger.logToServer token lv pk message w = (Rejected (Error msg), w) /\
     (msg = "Valid bearer token is required" \/ msg = "Log message is required") /\
     sent (StarterLogger.logToServer token lv pk message) w = []) /\
  sent (LibLogger.logToServer token (JsStr level) (JsStr pkg) message) w =
    match to_string token with
    | Fulfilled bearer =>
        [mkRequest "http://20.244.56.144/evaluation-service/logs" "POST"
           [("Content-Type", "application/json"); ("Authorization", "Bearer " ++ bearer)]
           (JSON_stringify (LogRequest (toLowerCase level) (toLowerCase pkg) message))]
    | Rejected _ => []
    end /\
  (forall e,
      to_string token = Rejected e ->
      fst (LibLogger.logToServer token (JsStr level) (JsStr pkg) message w) =
      Rejected e) /\
  sent (LibLogger.logToServer (JsStr "") (JsStr level) (JsStr pkg) (JsStr "")) w =
    [mkRequest "http://20.244.56.144/evaluation-service/logs" "POST"
       [("Content-Type", "application/json"); ("Authorization", "Bearer ")]
       (JSON_stringify (LogRequest (toLowerCase level) (toLowerCase pkg) (JsStr "")))] /\
  (present token = true -> present message = true ->
   exists req,
     sent (StarterLogger.logToServer token (JsStr level) (JsStr pkg) message) w = [req] /\
     canonical_fields level pkg (payload (body req))).
Proof.
  split; [|split; [|split; [|split]]].
  - intros H lv pk.
    assert (Hp : present token && present message = false).
    { destruct H as [H | H]; rewrite (not_present _ H);
        [reflexivity | apply andb_false_r]. }
    eexists. split; [apply (starter_rejects_locally _ _ _ _ _ Hp)|].
    split; [destruct (present token); auto|].
    apply (starter_sent_nothing _ _ _ _ _ Hp).
  - rewrite lib_sent. destruct (to_string token); reflexivity.
  - intros e He. apply (lib_unrenderable_token token message level pkg w e He).
  - rewrite lib_sent. reflexivity.
  - intros Ht Hm. destruct (present_string _ Hm) as (m & -> & Hne).
    eexists. split; [apply (starter_sent _ _ _ _ _ Ht Hne)|].
    apply canonical_LogRequest.
Qed.

Lemma logToServer_local_validation_witness :
  StarterLogger.logToServer (JsStr "") (JsStr "info") (JsStr "api") (JsStr "m")
    (world_answering (Rejected (TypeError "Failed to fetch"))) =
    (Rejected (Error "Valid bearer token is required"),
     world_answering (Rejected (TypeError "Failed to fetch"))) /\
  (exists req,
     sent (StarterLogger.logToServer (JsStr "t") (JsStr "info") (JsStr "api") (JsStr "m"))
       (world_answering (Rejected (TypeError "Failed to fetch"))) = [req] /\
     canonical_fields "info" "api" (payload (body req))) /\
  (exists msg,
     fst (LibLogger.logToServer unrenderable (JsStr "info") (JsStr "api") (JsStr "m")
            (world_answering (Fulfilled log_created))) =
     Rejected (TypeError msg)).
Proof.
  split; [|split].
  - destruct (logToServer_local_validation (JsStr "") (JsStr "m") "info" "api"
                (world_answering (Rejected (TypeError "Failed to fetch"))))
      as [H _].
    destruct (H (or_introl (or_introl eq_refl)) (JsStr "info") (JsStr "api"))
      as (msg & E & _ & _).
    rewrite E. vm_compute in E. injection E as E. rewrite E. reflexivity.
  - destruct (logToServer_local_validation (JsStr "t") (JsStr "m") "info" "api"
                (world_answering (Rejected (TypeError "Failed to fetch"))))
      as (_ & _ & _ & _ & H).
    exact (H eq_refl eq_refl).
  - destruct (logToServer_local_validation unrenderable (JsStr "m") "info" "api"
                (world_answering (Fulfilled log_created)))
      as (_ & _ & H & _).
    eexists. exact (H _ eq_refl).
Defined.

(** ** The logger factory *)

(** C5: each of the five functions of [createLogger token] is the call of
    [logToServer] with the token and its level filled in: same outcome, same
    world, same payloads on the wire, in both variants. *)
Theorem createLogger_forwards (token pkg message : JsValue) :
  (same_call (debug (LibLogger.createLogger token) pkg message)
             (LibLogger.logToServer token (JsStr "debug") pkg message) /\
   same_call (info (LibLogger.createLogger token) pkg message)
             (LibLogger.logToServer token (JsStr "info") pkg message) /\
   same_call (warn (LibLogger.createLogger token) pkg message)
             (LibLogger.logToServer token (JsStr "warn") pkg message) /\
   same_call (error (LibLogger.createLogger token) pkg message)
             (LibLogger.logToServer token (JsStr "error") pkg message) /\
   same_call (fatal (LibLogger.createLogger token) pkg message)
             (LibLogger.logToServer token (JsStr "fatal") pkg message)) /\
  (same_call (debug (StarterLogger.createLogger token) pkg message)
             (StarterLogger.logToServer token (JsStr "debug") pkg message) /\
   same_call (info (StarterLogger.createLogger token) pkg message)
             (StarterLogger.logToServer token (JsStr "info") pkg message) /\
   same_call (warn (StarterLogger.createLogger token) pkg message)
             (StarterLogger.logToServer token (JsStr "warn") pkg message) /\
   same_call (error (StarterLogger.createLogger token) pkg message)
             (StarterLogger.logToServer token (JsStr "error") pkg message) /\
   same_call (fatal (StarterLogger.createLogger token) pkg message)
             (StarterLogger.logToServer token (JsStr "fatal") pkg message)).
Proof.
  repeat split.
Qed.

(** ** Outcomes of [logToServer] *)

Lemma lib_logToServer_not_ok
    (token : JsValue) (bearer level pkg : string) (w : World)
    (message : JsValue) (r : Response) :
  to_string token = Fulfilled bearer ->
  network w (requests w)
    (logs_request LibLogger.LOGS_ENDPOINT bearer
       (LogRequest (toLowerCase level) (toLowerCase pkg) message)) = Fulfilled r ->
  ok r = false ->
  fst (LibLogger.logToServer token (JsStr level) (JsStr pkg) message w) =
  Rejected (Error ("HTTP error! status: " ++ string_of_Z (status r))).
Proof.
  intros Hb Hn Hok. unfold logs_request in Hn. simpl in Hn.
  run. rewrite Hb. simpl. rewrite Hn. simpl. rewrite Hok. reflexivity.
Qed.

Lemma lib_logToServer_ok
    (token : JsValue) (bearer level pkg : string) (w : World)
    (message : JsValue) (r : Response) (reply logID : JsValue) (shown : string) :
  to_string token = Fulfilled bearer ->
  network w (requests w)
    (logs_request LibLogger.LOGS_ENDPOINT bearer
       (LogRequest (toLowerCase level) (toLowerCase pkg) message)) = Fulfilled r ->
  ok r = true -> json r = Some reply -> get_prop reply "logID" = Fulfilled logID ->
  to_string logID = Fulfilled shown ->
  fst (LibLogger.logToServer token (JsStr level) (JsStr pkg) message w) =
  Fulfilled reply.
Proof.
  intros Hb Hn Hok Hj Hid Hs. unfold logs_request in Hn. simpl in Hn.
  run. rewrite Hb. simpl. rewrite Hn. simpl. rewrite Hok. simpl. rewrite Hj. simpl.
  rewrite Hid. simpl. rewrite Hs. reflexivity.
Qed.

Section Delivery.

Variables (token : JsValue) (level pkg : string) (w : World).

(** The standalone logger, once the token and the message have passed. *)
Hypothesis token_present : present token = true.

Lemma starter_checks_pass (m : string) :
  m <> "" ->
  (negb (truthy token) || negb (is_string token) = false) /\
  (negb (truthy (JsStr m)) || negb (is_string (JsStr m)) = false).
Proof.
  intros Hm. unfold present in token_present.
  apply andb_prop in token_present. destruct token_present as [-> ->].
  simpl. rewrite (eqb_empty_false m Hm). split; reflexivity.
Qed.

Lemma starter_logToServer_not_ok (m : string) (r : Response) :
  m <> "" ->
  network w (requests w)
    (logs_request StarterLogger.LOGS_ENDPOINT (bearer_of token)
       (LogRequest (toLowerCase level) (toLowerCase pkg) (JsStr (trim m)))) =
    Fulfilled r ->
  ok r = false ->
  fst (StarterLogger.logToServer token (JsStr level) (JsStr pkg) (JsStr m) w) =
  Rejected (Error ("HTTP " ++ string_of_Z (status r) ++ ": " ++ text r)).
Proof.
  intros Hm Hn Hok. destruct (starter_checks_pass m Hm) as [Ct Cm].
  unfold logs_request in Hn. simpl in Hn.
  unfold StarterLogger.logToServer. rewrite Ct, Cm.
  run. rewrite (present_bearer token token_present). simpl.
  rewrite Hn. simpl. rewrite Hok. reflexivity.
Qed.

Lemma starter_logToServer_ok
    (m : string) (r : Response) (reply logID : JsValue) (shown : string) :
  m <> "" ->
  network w (requests w)
    (logs_request StarterLogger.LOGS_ENDPOINT (bearer_of token)
       (LogRequest (toLowerCase level) (toLowerCase pkg) (JsStr (trim m)))) =
    Fulfilled r ->
  ok r = true -> json r = Some reply -> get_prop reply "logID" = Fulfilled logID ->
  to_string logID = Fulfilled shown ->
  fst (StarterLogger.logToServer token (JsStr level) (JsStr pkg) (JsStr m) w) =
  Fulfilled reply.
Proof.
  intros Hm Hn Hok Hj Hid Hs. destruct (starter_checks_pass m Hm) as [Ct Cm].
  unfold logs_request in Hn. simpl in Hn.
  unfold StarterLogger.logToServer. rewrite Ct, Cm.
  run. rewrite (present_bearer token token_present). simpl.
  rewrite Hn. simpl. rewrite Hok. simpl. rewrite Hj. simpl.
  rewrite Hid. simpl. rewrite Hs. reflexivity.
Qed.

End Delivery.

Lemma lib_logToServer_fulfilled
    (token level pkg message : JsValue) (w w' : World) (ack : JsValue) :
  LibLogger.logToServer token level pkg message w = (Fulfilled ack, w') ->
  exists l p bearer r logID shown,
    level = JsStr l /\ pkg = JsStr p /\ to_string token = Fulfilled bearer /\
    network w (requests w)
      (logs_request LibLogger.LOGS_ENDPOINT bearer
         (LogRequest (toLowerCase l) (toLowerCase p) message)) = Fulfilled r /\
    ok r = true /\ json r = Some ack /\ get_prop ack "logID" = Fulfilled logID /\
    to_string logID = Fulfilled shown.
Proof.
  unfold logs_request. run.
  destruct level as [| | | |l| |]; simpl; try discriminate.
  destruct pkg as [| | | |p| |]; simpl; try discriminate.
  destruct (to_string token) as [bearer|e0] eqn:Hb; simpl; [|discriminate].
  destruct (network w (requests w) _) as [r|e] eqn:Hn; simpl; [|discriminate].
  destruct (ok r) eqn:Hok; simpl; [|discriminate].
  destruct (json r) as [v|] eqn:Hj; simpl; [|discriminate].
  destruct (get_prop v "logID") as [i|e] eqn:Hid; simpl; [|discriminate].
  destruct (to_string i) as [t|e] eqn:Hs; simpl; [|discriminate].
  intros E. injection E as E _. subst v.
  exists l, p, bearer, r, i, t. repeat split; assumption.
Qed.

Lemma starter_logToServer_fulfilled
    (token level pkg message : JsValue) (w w' : World) (ack : JsValue) :
  StarterLogger.logToServer token level pkg message w = (Fulfilled ack, w') ->
  exists l p m r logID shown,
    level = JsStr l /\ pkg = JsStr p /\ message = JsStr m /\
    present token = true /\ m <> "" /\
    network w (requests w)
      (logs_request StarterLogger.LOGS_ENDPOINT (bearer_of token)
         (LogRequest (toLowerCase l) (toLowerCase p) (JsStr (trim m)))) =
      Fulfilled r /\
    ok r = true /\ json r = Some ack /\ get_prop ack "logID" = Fulfilled logID /\
    to_string logID = Fulfilled shown.
Proof.
  intros E.
  destruct (present token && present message) eqn:Hp.
  2:{ rewrite (starter_rejects_locally _ _ _ _ _ Hp) in E. discriminate. }
  apply andb_prop in Hp. destruct Hp as [Ht Hm].
  destruct (present_string _ Hm) as (m & -> & Hne).
  destruct (starter_checks_pass token Ht m Hne) as [Ct Cm].
  revert E. unfold logs_request, StarterLogger.logToServer. rewrite Ct, Cm. run.
  rewrite (present_bearer token Ht). simpl.
  destruct level as [| | | |l| |]; simpl; try discriminate.
  destruct pkg as [| | | |p| |]; simpl; try discriminate.
  destruct (network w (requests w) _) as [r|e] eqn:Hn; simpl; [|discriminate].
  destruct (ok r) eqn:Hok; simpl; [|discriminate].
  destruct (json r) as [v|] eqn:Hj; simpl; [|discriminate].
  destruct (get_prop v "logID") as [i|e] eqn:Hid; simpl; [|discriminate].
  destruct (to_string i) as [t|e] eqn:Hs; simpl; [|discriminate].
  intros E. injection E as E _. subst v.
  exists l, p, m, r, i, t. repeat split; assumption.
Qed.

(** ** One click of the demo *)

Ltac run_ui :=
  unfold LoggingDemo.sendLog, LoggingDemo.Date_toLocaleTimeString,
    LoggingDemo.await, LoggingDemo.setIsLoading,
    LoggingDemo.setLogs, LoggingDemo.toast,
    try_finally, try_catch, bind, settle, ret, Date_now.

Lemma sendLog_entry (token : JsValue) (level pkg : string) (message : JsValue)
    (st : LoggingDemo.State) (w : World) :
  truthy token = true ->
  exists e,
    LoggingDemo.logs (fst (snd (LoggingDemo.sendLog token level pkg message (st, w)))) =
      LoggingDemo.slice_0_10 (e :: LoggingDemo.logs st) /\
    LoggingDemo.level e = JsStr level /\ LoggingDemo.package e = JsStr pkg /\
    LoggingDemo.message e = message /\
    LoggingDemo.status e =
      match fst (LibLogger.logToServer token (JsStr level) (JsStr pkg) message w) with
      | Fulfilled _ => "success"
      | Rejected _ => "error"
      end /\
    (forall ack,
        fst (LibLogger.logToServer token (JsStr level) (JsStr pkg) message w) =
          Fulfilled ack ->
        get_prop ack "logID" = Fulfilled (LoggingDemo.id e)).
Proof.
  intros Ht.
  destruct (LibLogger.logToServer token (JsStr level) (JsStr pkg) message w)
    as [[ack|err] w1] eqn:E.
  - destruct (lib_logToServer_fulfilled _ _ _ _ _ _ _ E)
      as (l & p & b & r & i & t & _ & _ & _ & _ & _ & _ & Hid & _).
    run_ui. rewrite Ht. cbn [negb fst snd]. rewrite E. cbn [fst snd].
    rewrite Hid. cbn.
    eexists. repeat split. intros ack' Ha. injection Ha as <-. exact Hid.
  - run_ui. rewrite Ht. cbn [negb fst snd]. rewrite E. cbn.
    eexists. repeat split. intros ack Ha. discriminate.
Qed.

Lemma sendLog_no_token (token : JsValue) (level pkg : string) (message : JsValue)
    (st : LoggingDemo.State) (w : World) :
  truthy token = false ->
  LoggingDemo.sendLog token level pkg message (st, w) =
  (Fulfilled tt,
   (LoggingDemo.mkState (LoggingDemo.logs st) (LoggingDemo.isLoading st)
      (LoggingDemo.toasts st ++ [LoggingDemo.NoTokenToast]), w)).
Proof. intros Ht. unfold LoggingDemo.sendLog. rewrite Ht. reflexivity. Qed.

Lemma slice_0_10_length {A} (l : list A) :
  List.length (LoggingDemo.slice_0_10 l) <= 10.
Proof. unfold LoggingDemo.slice_0_10. apply firstn_le_length. Qed.

Lemma sendLog_capped (token : JsValue) (level pkg : string) (message : JsValue)
    (s : LoggingDemo.State * World) :
  List.length (LoggingDemo.logs (fst s)) <= 10 ->
  List.length
    (LoggingDemo.logs (fst (snd (LoggingDemo.sendLog token level pkg message s)))) <= 10.
Proof.
  destruct s as [st w]. intros H.
  destruct (truthy token) eqn:Ht.
  - destruct (sendLog_entry token level pkg message st w Ht) as (e & -> & _).
    apply slice_0_10_length.
  - rewrite (sendLog_no_token _ _ _ _ _ _ Ht). exact H.
Qed.

Lemma clicks_capped (cs : list LoggingDemo.Click) (s : LoggingDemo.State * World) :
  List.length (LoggingDemo.logs (fst s)) <= 10 ->
  List.length (LoggingDemo.logs (fst (LoggingDemo.clicks cs s))) <= 10.
Proof.
  revert s. induction cs as [|c cs IH]; intros s H; simpl; [exact H|].
  apply IH. apply sendLog_capped. exact H.
Qed.

Lemma firstn_full_removelast {A} (l : list A) (n : nat) :
  List.length l = S n -> firstn n l = removelast l.
Proof.
  revert n. induction l as [|x l IH]; intros n H; simpl in H; [discriminate|].
  injection H as H. destruct l as [|y l'].
  - simpl in H. subst n. reflexivity.
  - destruct n as [|n]; [discriminate|].
    cbn [firstn]. rewrite (IH n H). reflexivity.
Qed.

(** ** The authenticator *)

Lemma authenticate_sent (c : AuthCredentials) (w : World) :
  sent (LibLogger.authenticate c) w = [auth_request c].
Proof.
  unfold sent, auth_request. run.
  destruct (network w (requests w) _) as [r|e]; simpl; [|apply skipn_past].
  destruct (ok r); simpl; [|apply skipn_past].
  destruct (json r) as [v|]; simpl; apply skipn_past.
Qed.

(** C2, as the code has it: [authenticate] makes one fetch on every call
    (nothing is kept from an earlier call), a POST to the auth endpoint whose
    body is the JSON text of the six credentials; a status outside 200..299
    makes it throw an error whose message carries the status; the JSON body
    of a 2xx answer is returned as it came, unchecked, so that the caller
    reads the token type and the access token the server sent. *)
Theorem authenticate_exchange (c : AuthCredentials) (w : World) :
  sent (LibLogger.authenticate c) w =
    [mkRequest "http://20.244.56.144/evaluation-service/auth" "POST"
       [("Content-Type", "application/json")]
       (JSON_stringify
          (JsObj [("email", JsStr (email c)); ("name", JsStr (name c));
                  ("rollNo", JsStr (rollNo c)); ("accessCode", JsStr (accessCode c));
                  ("clientID", JsStr (clientID c));
                  ("clientSecret", JsStr (clientSecret c))]))] /\
  sent (LibLogger.authenticate c) (snd (LibLogger.authenticate c w)) =
    sent (LibLogger.authenticate c) w /\
  (forall r,
      network w (requests w) (auth_request c) = Fulfilled r -> ok r = false ->
      fst (LibLogger.authenticate c w) =
      Rejected (Error ("Authentication failed! status: " ++ string_of_Z (status r)))) /\
  (forall r reply,
      network w (requests w) (auth_request c) = Fulfilled r -> ok r = true ->
      json r = Some reply ->
      fst (LibLogger.authenticate c w) = Fulfilled reply).
Proof.
  split; [apply authenticate_sent|].
  split; [rewrite !authenticate_sent; reflexivity|].
  split.
  - intros r Hn Hok. unfold auth_request in Hn. simpl in Hn.
    run. rewrite Hn. simpl. rewrite Hok. reflexivity.
  - intros r reply Hn Hok Hj. unfold auth_request in Hn. simpl in Hn.
    run. rewrite Hn. simpl. rewrite Hok. simpl. rewrite Hj. reflexivity.
Qed.

Lemma authenticate_exchange_witness :
  fst (LibLogger.authenticate (mkCredentials "e@x.org" "n" "r1" "code" "id" "secret")
         (world_answering (Fulfilled unauthorized))) =
    Rejected (Error "Authentication failed! status: 401") /\
  fst (LibLogger.authenticate (mkCredentials "e@x.org" "n" "r1" "code" "id" "secret")
         (world_answering
            (Fulfilled (mkResponse 200 "" (Some (AuthResponse "abc.def" seconds_3600)))))) =
    Fulfilled
      (JsObj [("token_type", JsStr "Bearer"); ("access_token", JsStr "abc.def");
              ("expires_in", JsNum seconds_3600)]).
Proof.
  split.
  - destruct (authenticate_exchange
                (mkCredentials "e@x.org" "n" "r1" "code" "id" "secret")
                (world_answering (Fulfilled unauthorized)))
      as (_ & _ & Hfail & _).
    exact (Hfail unauthorized eq_refl eq_refl).
  - destruct (authenticate_exchange
                (mkCredentials "e@x.org" "n" "r1" "code" "id" "secret")
                (world_answering
                   (Fulfilled (mkResponse 200 ""
                                 (Some (AuthResponse "abc.def" seconds_3600))))))
      as (_ & _ & _ & Hok).
    exact (Hok (mkResponse 200 "" (Some (AuthResponse "abc.def" seconds_3600)))
               (AuthResponse "abc.def" seconds_3600) eq_refl eq_refl eq_refl).
Defined.

(** C2, as stated, fails on the token type: a 2xx answer whose JSON body
    names another token type is returned with that token type. *)
Lemma authenticate_relays_token_type :
  fst (LibLogger.authenticate (mkCredentials "e@x.org" "n" "r1" "code" "id" "secret")
         (world_answering
            (Fulfilled
               (mkResponse 200 ""
                  (Some (JsObj [("token_type", JsStr "MAC");
                                ("access_token", JsStr "abc.def");
                                ("expires_in", JsNum seconds_3600)])))))) =
    Fulfilled
      (JsObj [("token_type", JsStr "MAC"); ("access_token", JsStr "abc.def");
              ("expires_in", JsNum seconds_3600)]) /\
  field "token_type"
    (JsObj [("token_type", JsStr "MAC"); ("access_token", JsStr "abc.def");
            ("expires_in", JsNum seconds_3600)]) <> Some (JsStr "Bearer").
Proof.
  split; [vm_compute; reflexivity|].
  simpl. discriminate.
Qed.

(** ** Failure and success of a delivery *)

(** C3: when the logs endpoint answers with a status outside 200..299,
    [logToServer] throws an error whose message carries the status (and, in
    the standalone variant, the text of the response body), and a click of
    the demo puts an entry of status "error", not "success", at the head of
    the retained list. *)
Theorem log_delivery_failure
    (token message : JsValue) (bearer level pkg : string) (w : World) (r : Response) :
  ok r = false ->
  (to_string token = Fulfilled bearer ->
   network w (requests w)
     (logs_request LibLogger.LOGS_ENDPOINT bearer
        (LogRequest (toLowerCase level) (toLowerCase pkg) message)) = Fulfilled r ->
   fst (LibLogger.logToServer token (JsStr level) (JsStr pkg) message w) =
     Rejected (Error ("HTTP error! status: " ++ string_of_Z (status r))) /\
   (truthy token = true ->
    forall st, exists e,
      LoggingDemo.logs
        (fst (snd (LoggingDemo.sendLog token level pkg message (st, w)))) =
        e :: firstn 9 (LoggingDemo.logs st) /\
      LoggingDemo.status e = "error" /\ LoggingDemo.status e <> "success" /\
      LoggingDemo.level e = JsStr level /\ LoggingDemo.package e = JsStr pkg /\
      LoggingDemo.message e = message)) /\
  (forall m,
      message = JsStr m -> m <> "" -> present token = true ->
      network w (requests w)
        (logs_request StarterLogger.LOGS_ENDPOINT (bearer_of token)
           (LogRequest (toLowerCase level) (toLowerCase pkg) (JsStr (trim m)))) =
        Fulfilled r ->
      fst (StarterLogger.logToServer token (JsStr level) (JsStr pkg) message w) =
        Rejected (Error ("HTTP " ++ string_of_Z (status r) ++ ": " ++ text r))).
Proof.
  intros Hok. split.
  - intros Hb Hn.
    pose proof (lib_logToServer_not_ok token bearer level pkg w message r Hb Hn Hok) as Hf.
    split; [exact Hf|].
    intros Ht st.
    destruct (sendLog_entry token level pkg message st w Ht)
      as (e & Hl & He1 & He2 & He3 & Hs & _).
    rewrite Hf in Hs.
    exists e. split; [exact Hl|].
    split; [exact Hs|]. split; [rewrite Hs; discriminate|].
    repeat split; assumption.
  - intros m -> Hm Ht Hn.
    apply (starter_logToServer_not_ok token level pkg w Ht m r Hm Hn Hok).
Qed.

Lemma log_delivery_failure_witness :
  (fst (LibLogger.logToServer (JsStr "t") (JsStr "error") (JsStr "auth") (JsStr "m")
          (world_answering (Fulfilled unauthorized))) =
     Rejected (Error "HTTP error! status: 401") /\
   exists e,
     LoggingDemo.logs
       (fst (snd (LoggingDemo.sendLog (JsStr "t") "error" "auth" (JsStr "m")
                    (LoggingDemo.initial, world_answering (Fulfilled unauthorized))))) =
       [e] /\
     LoggingDemo.status e = "error") /\
  fst (StarterLogger.logToServer (JsStr "t") (JsStr "error") (JsStr "auth") (JsStr "m")
         (world_answering (Fulfilled unauthorized))) =
    Rejected (Error "HTTP 401: Unauthorized").
Proof.
  destruct (log_delivery_failure (JsStr "t") (JsStr "m") "t" "error" "auth"
              (world_answering (Fulfilled unauthorized)) unauthorized eq_refl)
    as [Hlib Hstarter].
  split.
  - destruct (Hlib eq_refl eq_refl) as [Hf Hui]. split; [exact Hf|].
    destruct (Hui eq_refl LoggingDemo.initial) as (e & Hl & Hs & _).
    exists e. split; [exact Hl | exact Hs].
  - refine (Hstarter "m" eq_refl _ eq_refl eq_refl). discriminate.
Defined.

(** C6: the acknowledgment that [logToServer] returns is the JSON body of
    the 2xx answer, untouched: a body whose [logID] reads [logID], a value
    that the console line can print, is returned with that same [logID], and
    every acknowledgment returned is the body of the 2xx answer to the
    request that was sent. *)
Theorem logID_round_trip
    (token message : JsValue) (level pkg : string) (w : World) :
  (forall bearer r reply logID shown,
      to_string token = Fulfilled bearer ->
      network w (requests w)
        (logs_request LibLogger.LOGS_ENDPOINT bearer
           (LogRequest (toLowerCase level) (toLowerCase pkg) message)) = Fulfilled r ->
      ok r = true -> json r = Some reply -> get_prop reply "logID" = Fulfilled logID ->
      to_string logID = Fulfilled shown ->
      exists ack,
        fst (LibLogger.logToServer token (JsStr level) (JsStr pkg) message w) =
          Fulfilled ack /\
        get_prop ack "logID" = Fulfilled logID) /\
  (forall m r reply logID shown,
      message = JsStr m -> m <> "" -> present token = true ->
      network w (requests w)
        (logs_request StarterLogger.LOGS_ENDPOINT (bearer_of token)
           (LogRequest (toLowerCase level) (toLowerCase pkg) (JsStr (trim m)))) =
        Fulfilled r ->
      ok r = true -> json r = Some reply -> get_prop reply "logID" = Fulfilled logID ->
      to_string logID = Fulfilled shown ->
      exists ack,
        fst (StarterLogger.logToServer token (JsStr level) (JsStr pkg) message w) =
          Fulfilled ack /\
        get_prop ack "logID" = Fulfilled logID) /\
  (forall ack w',
      LibLogger.logToServer token (JsStr level) (JsStr pkg) message w = (Fulfilled ack, w') ->
      exists req r,
        sent (LibLogger.logToServer token (JsStr level) (JsStr pkg) message) w = [req] /\
        network w (requests w) req = Fulfilled r /\ ok r = true /\
        json r = Some ack) /\
  (forall ack w',
      StarterLogger.logToServer token (JsStr level) (JsStr pkg) message w = (Fulfilled ack, w') ->
      exists req r,
        sent (StarterLogger.logToServer token (JsStr level) (JsStr pkg) message) w = [req] /\
        network w (requests w) req = Fulfilled r /\ ok r = true /\
        json r = Some ack).
Proof.
  split; [|split; [|split]].
  - intros bearer r reply logID shown Hb Hn Hok Hj Hid Hs. exists reply.
    split; [|exact Hid].
    apply (lib_logToServer_ok token bearer level pkg w message r reply logID shown
             Hb Hn Hok Hj Hid Hs).
  - intros m r reply logID shown -> Hm Ht Hn Hok Hj Hid Hs. exists reply.
    split; [|exact Hid].
    apply (starter_logToServer_ok token level pkg w Ht m r reply logID shown
             Hm Hn Hok Hj Hid Hs).
  - intros ack w' E.
    destruct (lib_logToServer_fulfilled _ _ _ _ _ _ _ E)
      as (l & p & b & r & i & t & El & Ep & Hb & Hn & Hok & Hj & _).
    injection El as <-. injection Ep as <-.
    eexists. exists r. rewrite lib_sent, Hb.
    split; [reflexivity|]. repeat split; assumption.
  - intros ack w' E.
    destruct (starter_logToServer_fulfilled _ _ _ _ _ _ _ E)
      as (l & p & m & r & i & t & El & Ep & -> & Ht & Hm & Hn & Hok & Hj & _).
    injection El as <-. injection Ep as <-.
    eexists. exists r. split; [apply (starter_sent _ _ _ _ _ Ht Hm)|].
    repeat split; assumption.
Qed.

Lemma logID_round_trip_witness :
  (exists ack,
     fst (LibLogger.logToServer (JsStr "t") (JsStr "info") (JsStr "page") (JsStr "m")
            (world_answering (Fulfilled log_created))) = Fulfilled ack /\
     get_prop ack "logID" = Fulfilled (JsStr "a4aad02e")) /\
  (exists ack,
     fst (StarterLogger.logToServer (JsStr "t") (JsStr "info") (JsStr "page") (JsStr "m")
            (world_answering (Fulfilled log_created))) = Fulfilled ack /\
     get_prop ack "logID" = Fulfilled (JsStr "a4aad02e")).
Proof.
  destruct (logID_round_trip (JsStr "t") (JsStr "m") "info" "page"
              (world_answering (Fulfilled log_created)))
    as (Hlib & Hstarter & _ & _).
  split.
  - exact (Hlib "t" log_created _ (JsStr "a4aad02e") "a4aad02e"
             eq_refl eq_refl eq_refl eq_refl eq_refl eq_refl).
  - refine (Hstarter "m" log_created _ (JsStr "a4aad02e") "a4aad02e"
              eq_refl _ eq_refl eq_refl eq_refl eq_refl eq_refl eq_refl).
    discriminate.
Defined.

Lemma logToServer_payload_shape
    (token message : JsValue) (level pkg : string) (w : World) :
  outbound_payloads
    (StarterLogger.logToServer token (JsStr level) (JsStr pkg) message) w = [] \/
  exists msg,
    outbound_payloads
      (StarterLogger.logToServer token (JsStr level) (JsStr pkg) message) w =
    [LogRequest (toLowerCase level) (toLowerCase pkg) msg].
Proof.
  unfold outbound_payloads.
  destruct (present token && present message) eqn:H.
  - apply andb_prop in H. destruct H as [Ht Hm].
    destruct (present_string _ Hm) as (m & -> & Hne).
    right. eexists. rewrite (starter_sent _ _ _ _ _ Ht Hne). reflexivity.
  - left. rewrite (starter_sent_nothing _ _ _ _ _ H). reflexivity.
Qed.

(** ** Trimming of the message *)

Lemma starter_message_by_trim
    (token level pkg : JsValue) (m1 m2 : string) (w : World) :
  m1 <> "" -> m2 <> "" -> trim m1 = trim m2 ->
  StarterLogger.logToServer token level pkg (JsStr m1) w =
  StarterLogger.logToServer token level pkg (JsStr m2) w.
Proof.
  intros H1 H2 Ht. run.
  rewrite (eqb_empty_false m1 H1), (eqb_empty_false m2 H2). simpl.
  rewrite Ht. reflexivity.
Qed.

(** C7, as the code has it: a message that keeps at least one character
    after trimming and that same message already trimmed make the
    standalone [logToServer] behave alike; what goes on the wire is the
    trimmed text in both cases. *)
Theorem trimmed_message_same_call
    (token level pkg : JsValue) (m : string) (w : World) :
  trim m <> "" ->
  StarterLogger.logToServer token level pkg (JsStr m) w =
    StarterLogger.logToServer token level pkg (JsStr (trim m)) w /\
  outbound_messages (StarterLogger.logToServer token level pkg (JsStr m)) w =
    outbound_messages (StarterLogger.logToServer token level pkg (JsStr (trim m))) w /\
  (forall l p,
      level = JsStr l -> pkg = JsStr p -> present token = true ->
      outbound_messages (StarterLogger.logToServer token level pkg (JsStr m)) w =
        [Some (JsStr (trim m))]).
Proof.
  intros Hne.
  assert (E : StarterLogger.logToServer token level pkg (JsStr m) w =
              StarterLogger.logToServer token level pkg (JsStr (trim m)) w).
  { apply starter_message_by_trim;
      [apply trim_nonempty_input; exact Hne | exact Hne |
       symmetry; apply trim_idempotent]. }
  split; [exact E|]. split.
  - unfold outbound_messages, outbound_payloads, sent. rewrite E. reflexivity.
  - intros l p -> -> Ht.
    unfold outbound_messages, outbound_payloads.
    rewrite (starter_sent token l p m w Ht (trim_nonempty_input m Hne)).
    reflexivity.
Qed.

Lemma trimmed_message_same_call_witness :
  outbound_messages
    (StarterLogger.logToServer (JsStr "t") (JsStr "info") (JsStr "api") (JsStr "  hello  "))
    (world_answering (Fulfilled log_created)) = [Some (JsStr "hello")] /\
  outbound_messages
    (StarterLogger.logToServer (JsStr "t") (JsStr "info") (JsStr "api") (JsStr "hello"))
    (world_answering (Fulfilled log_created)) = [Some (JsStr "hello")].
Proof.
  assert (H : trim "  hello  " <> "") by (vm_compute; discriminate).
  destruct (trimmed_message_same_call (JsStr "t") (JsStr "info") (JsStr "api")
              "  hello  " (world_answering (Fulfilled log_created)) H)
    as (_ & Hsame & Hwire).
  pose proof (Hwire "info" "api" eq_refl eq_refl eq_refl) as Hw.
  split.
  - exact Hw.
  - rewrite Hsame in Hw. exact Hw.
Defined.

(** C7, as stated, fails on a message made of blanks only: it is not empty,
    it is sent with the empty text, and its trimmed form is turned down
    before anything is sent. *)
Lemma blank_message_and_its_trim_differ :
  "   " <> "" /\
  outbound_messages
    (StarterLogger.logToServer (JsStr "t") (JsStr "info") (JsStr "api") (JsStr "   "))
    (world_answering (Fulfilled log_created)) = [Some (JsStr "")] /\
  outbound_messages
    (StarterLogger.logToServer (JsStr "t") (JsStr "info") (JsStr "api")
       (JsStr (trim "   ")))
    (world_answering (Fulfilled log_created)) = [] /\
  outbound_messages
    (StarterLogger.logToServer (JsStr "t") (JsStr "info") (JsStr "api") (JsStr "   "))
    (world_answering (Fulfilled log_created)) <>
  outbound_messages
    (StarterLogger.logToServer (JsStr "t") (JsStr "info") (JsStr "api")
       (JsStr (trim "   ")))
    (world_answering (Fulfilled log_created)).
Proof.
  split; [discriminate|].
  split; [vm_compute; reflexivity|].
  split; [vm_compute; reflexivity|].
  vm_compute. discriminate.
Qed.

(** ** The record on the wire *)

Lemma LogLevels_lower (l : string) : In l LogLevels -> toLowerCase l = l.
Proof.
  unfold LogLevels. simpl.
  intros H. repeat (destruct H as [<- | H]; [reflexivity|]). destruct H.
Qed.

Lemma FrontendPackages_lower (p : string) : In p FrontendPackages -> toLowerCase p = p.
Proof.
  unfold FrontendPackages. simpl.
  intros H. repeat (destruct H as [<- | H]; [reflexivity|]). destruct H.
Qed.

(** C8, as the code has it: the severity and the category on the wire are
    the inputs in lower case, hence members of the two closed enumerations
    whenever the inputs are members written in any letter case; the library
    variant sends this record for every token that the Authorization header
    can print (and nothing for another); the message
    on the wire is the input as given in the library variant, and the
    trimmed input in the standalone variant, which is not empty as soon as
    the input has a character that is not white space. *)
Theorem log_record_on_the_wire
    (token message : JsValue) (level pkg lvl cat : string) (w : World) :
  In lvl LogLevels -> In cat FrontendPackages ->
  same_ignoring_case level lvl -> same_ignoring_case pkg cat ->
  outbound_payloads
    (LibLogger.logToServer token (JsStr level) (JsStr pkg) message) w =
    match to_string token with
    | Fulfilled _ => [LogRequest lvl cat message]
    | Rejected _ => []
    end /\
  (forall m, message = JsStr m -> m <> "" ->
             message_non_empty (LogRequest lvl cat message)) /\
  (forall m,
      message = JsStr m -> trim m <> "" -> present token = true ->
      outbound_payloads
        (StarterLogger.logToServer token (JsStr level) (JsStr pkg) message) w =
        [LogRequest lvl cat (JsStr (trim m))] /\
      message_non_empty (LogRequest lvl cat (JsStr (trim m)))) /\
  (forall p,
      In p (outbound_payloads
              (StarterLogger.logToServer token (JsStr level) (JsStr pkg) message) w) ->
      field "level" p = Some (JsStr lvl) /\ field "package" p = Some (JsStr cat)).
Proof.
  unfold same_ignoring_case. intros Hl Hc El Ec.
  rewrite (LogLevels_lower _ Hl) in El.
  rewrite (FrontendPackages_lower _ Hc) in Ec.
  split; [|split; [|split]].
  - unfold outbound_payloads. rewrite lib_sent.
    destruct (to_string token); simpl; [rewrite El, Ec|]; reflexivity.
  - intros m -> Hm. exists m. split; [reflexivity | exact Hm].
  - intros m -> Hm Ht. split.
    + unfold outbound_payloads.
      rewrite (starter_sent token level pkg m w Ht (trim_nonempty_input m Hm)).
      simpl. rewrite El, Ec. reflexivity.
    + exists (trim m). split; [reflexivity | exact Hm].
  - intros p.
    destruct (logToServer_payload_shape token message level pkg w) as [Hs | [msg Hs]];
      rewrite Hs; simpl.
    + intros [].
    + intros [<- | []]. simpl. rewrite El, Ec. split; reflexivity.
Qed.

Lemma log_record_on_the_wire_witness :
  outbound_payloads
    (LibLogger.logToServer (JsStr "t") (JsStr "ERROR") (JsStr "API") (JsStr " boom "))
    (world_answering (Fulfilled log_created)) =
    [LogRequest "error" "api" (JsStr " boom ")] /\
  outbound_payloads
    (StarterLogger.logToServer (JsStr "t") (JsStr "ERROR") (JsStr "API") (JsStr " boom "))
    (world_answering (Fulfilled log_created)) =
    [LogRequest "error" "api" (JsStr "boom")].
Proof.
  assert (Hl : In "error" LogLevels) by (simpl; tauto).
  assert (Hc : In "api" FrontendPackages) by (simpl; tauto).
  assert (Hm : trim " boom " <> "") by (vm_compute; discriminate).
  destruct (log_record_on_the_wire (JsStr "t") (JsStr " boom ") "ERROR" "API"
              "error" "api" (world_answering (Fulfilled log_created))
              Hl Hc eq_refl eq_refl)
    as (Hlib & _ & Hstarter & _).
  split; [exact Hlib|].
  exact (proj1 (Hstarter " boom " eq_refl Hm eq_refl)).
Defined.

(** C8, as stated, fails on the message: the library variant sends a record
    whose message is the empty string. *)
Lemma empty_message_goes_out :
  outbound_payloads
    (LibLogger.logToServer (JsStr "t") (JsStr "info") (JsStr "api") (JsStr ""))
    (world_answering (Fulfilled log_created)) =
    [LogRequest "info" "api" (JsStr "")] /\
  ~ message_non_empty (LogRequest "info" "api" (JsStr "")).
Proof.
  split; [vm_compute; reflexivity|].
  intros (m & Hf & Hm). simpl in Hf. injection Hf as <-. apply Hm. reflexivity.
Qed.

(** Membership in the enumerations is a matter of the TypeScript types
    only: a level that is no member goes out as it is, in lower case. *)
Example level_outside_enumeration :
  outbound_payloads
    (StarterLogger.logToServer (JsStr "t") (JsStr "Verbose") (JsStr "api") (JsStr "m"))
    (world_answering (Fulfilled log_created)) =
    [LogRequest "verbose" "api" (JsStr "m")] /\
  ~ In "verbose" LogLevels.
Proof.
  split; [vm_compute; reflexivity|].
  simpl. intros H. repeat (destruct H as [H | H]; [discriminate|]). exact H.
Qed.

(** ** The retained list of the demo *)

(** C9: a click that goes through puts its entry first and keeps the nine
    newest of the entries already shown, so that a full list loses its
    oldest entry; a click without token leaves the list alone; the list
    never grows beyond ten entries, whatever the series of clicks. *)
Theorem retained_logs_capped
    (token : JsValue) (level pkg : string) (message : JsValue)
    (st : LoggingDemo.State) (w : World) :
  (truthy token = true ->
   exists e,
     LoggingDemo.logs
       (fst (snd (LoggingDemo.sendLog token level pkg message (st, w)))) =
       e :: firstn 9 (LoggingDemo.logs st) /\
     LoggingDemo.level e = JsStr level /\ LoggingDemo.package e = JsStr pkg /\
     LoggingDemo.message e = message /\
     (List.length (LoggingDemo.logs st) = 10 ->
      LoggingDemo.logs
        (fst (snd (LoggingDemo.sendLog token level pkg message (st, w)))) =
        e :: removelast (LoggingDemo.logs st))) /\
  (truthy token = false ->
   LoggingDemo.logs
     (fst (snd (LoggingDemo.sendLog token level pkg message (st, w)))) =
     LoggingDemo.logs st) /\
  (List.length (LoggingDemo.logs st) <= 10 ->
   List.length
     (LoggingDemo.logs
        (fst (snd (LoggingDemo.sendLog token level pkg message (st, w))))) <= 10) /\
  (forall cs,
      List.length
        (LoggingDemo.logs
           (fst (LoggingDemo.clicks cs (LoggingDemo.initial, w)))) <= 10).
Proof.
  split; [|split; [|split]].
  - intros Ht.
    destruct (sendLog_entry token level pkg message st w Ht)
      as (e & Hl & He1 & He2 & He3 & _).
    exists e. split; [exact Hl|].
    split; [exact He1|]. split; [exact He2|]. split; [exact He3|].
    intros Hfull. rewrite Hl.
    change (LoggingDemo.slice_0_10 (e :: LoggingDemo.logs st))
      with (e :: firstn 9 (LoggingDemo.logs st)).
    rewrite (firstn_full_removelast _ 9 Hfull). reflexivity.
  - intros Ht. rewrite (sendLog_no_token _ _ _ _ _ _ Ht). reflexivity.
  - apply (sendLog_capped token level pkg message (st, w)).
  - intros cs. apply clicks_capped. simpl. lia.
Qed.

Lemma retained_logs_capped_witness :
  exists e,
    LoggingDemo.logs
      (fst (snd (LoggingDemo.sendLog (JsStr "t") "warn" "api"
                   (JsStr "slow") (full_list, world_answering (Fulfilled log_created))))) =
      e :: repeat old_entry 9 /\
    LoggingDemo.message e = JsStr "slow".
Proof.
  destruct (retained_logs_capped (JsStr "t") "warn" "api" (JsStr "slow")
              full_list (world_answering (Fulfilled log_created)))
    as (Hin & _ & _ & _).
  destruct (Hin eq_refl) as (e & _ & _ & _ & Hm & Hfull).
  exists e. split; [exact (Hfull eq_refl) | exact Hm].
Defined.

(** C10: with a [null] token a click returns at once: the world is the same
    (no request, no console line, no clock reading), the retained list and
    the loading mark are the same, and one notice is added. *)
Theorem sendLog_without_token
    (level pkg : string) (message : JsValue) (st : LoggingDemo.State) (w : World) :
  LoggingDemo.sendLog JsNull level pkg message (st, w) =
    (Fulfilled tt,
     (LoggingDemo.mkState (LoggingDemo.logs st) (LoggingDemo.isLoading st)
        (LoggingDemo.toasts st ++ [LoggingDemo.NoTokenToast]), w)) /\
  requests (snd (snd (LoggingDemo.sendLog JsNull level pkg message (st, w)))) =
    requests w /\
  console (snd (snd (LoggingDemo.sendLog JsNull level pkg message (st, w)))) =
    console w /\
  LoggingDemo.logs (fst (snd (LoggingDemo.sendLog JsNull level pkg message (st, w)))) =
    LoggingDemo.logs st.
Proof.
  repeat split.
Qed.

(** * Further properties of the loggers *)

Lemma lib_trace (token level pkg message : JsValue) (w : World) :
  requests (snd (LibLogger.logToServer token level pkg message w)) =
    (requests w ++ lib_requests token level pkg message)%list /\
  ticks (snd (LibLogger.logToServer token level pkg message w)) = ticks w.
Proof.
  unfold lib_requests, logs_request.
  destruct level as [| | | |l| |];
    try (run; rewrite app_nil_r; split; reflexivity).
  destruct pkg as [| | | |p| |];
    try (run; rewrite app_nil_r; split; reflexivity).
  run.
  destruct (to_string token) as [bearer|e0]; simpl;
    [|rewrite app_nil_r; split; reflexivity].
  after_fetch; split; reflexivity.
Qed.

Lemma starter_trace (token level pkg message : JsValue) (w : World) :
  requests (snd (StarterLogger.logToServer token level pkg message w)) =
    (requests w ++ starter_requests token level pkg message)%list /\
  ticks (snd (StarterLogger.logToServer token level pkg message w)) = ticks w.
Proof.
  unfold starter_requests.
  destruct (present token && present message) eqn:Hp.
  2:{ rewrite (starter_rejects_locally _ _ _ _ _ Hp). simpl.
      rewrite app_nil_r. split; reflexivity. }
  apply andb_prop in Hp. destruct Hp as [Ht Hm].
  destruct (present_string _ Hm) as (m & -> & Hne).
  destruct (starter_checks_pass token Ht m Hne) as [Ct Cm].
  destruct (present_string _ Ht) as (t & -> & _).
  unfold logs_request, StarterLogger.logToServer. rewrite Ct, Cm.
  destruct level as [| | | |l| |];
    try (run; rewrite app_nil_r; split; reflexivity).
  destruct pkg as [| | | |p| |];
    try (run; rewrite app_nil_r; split; reflexivity).
  run.
  after_fetch; split; reflexivity.
Qed.

Lemma lib_requests_shape (token level pkg message : JsValue) :
  List.length (lib_requests token level pkg message) <= 1 /\
  Forall is_log_post (lib_requests token level pkg message).
Proof.
  unfold lib_requests.
  destruct level, pkg, (to_string token); (split; [simpl; lia | repeat constructor]).
Qed.

Lemma starter_requests_shape (token level pkg message : JsValue) :
  List.length (starter_requests token level pkg message) <= 1 /\
  Forall is_log_post (starter_requests token level pkg message).
Proof.
  unfold starter_requests.
  destruct (present token && present message);
    [|split; [simpl; lia | constructor]].
  destruct level, pkg, message, token; (split; [simpl; lia | repeat constructor]).
Qed.

(** X1: whatever its arguments and whatever the answer, a call of
    [logToServer] makes at most one fetch (a failure is never retried), only
    ever a POST to the logs endpoint, and never reads the clock; in both
    variants. *)
Theorem logToServer_no_retry (token level pkg message : JsValue) (w : World) :
  (exists l,
      requests (snd (LibLogger.logToServer token level pkg message w)) =
        (requests w ++ l)%list /\
      List.length l <= 1 /\ Forall is_log_post l) /\
  ticks (snd (LibLogger.logToServer token level pkg message w)) = ticks w /\
  (exists l,
      requests (snd (StarterLogger.logToServer token level pkg message w)) =
        (requests w ++ l)%list /\
      List.length l <= 1 /\ Forall is_log_post l) /\
  ticks (snd (StarterLogger.logToServer token level pkg message w)) = ticks w.
Proof.
  destruct (lib_trace token level pkg message w) as [Hl Hlt].
  destruct (starter_trace token level pkg message w) as [Hs Hst].
  split; [|split; [exact Hlt | split; [|exact Hst]]].
  - exists (lib_requests token level pkg message).
    split; [exact Hl | apply lib_requests_shape].
  - exists (starter_requests token level pkg message).
    split; [exact Hs | apply starter_requests_shape].
Qed.

(** X2: a call of [logToServer] that gets past the making of its record
    writes exactly one console line, which tells its outcome: the success
    line with the [logID] of the acknowledgment it returns, as printed, or
    the failure line of its variant with the very error it throws; a call
    the standalone variant turns down locally writes nothing. *)
Theorem logToServer_console_line
    (token message : JsValue) (level pkg : string) (w : World) :
  printed (LibLogger.logToServer token (JsStr level) (JsStr pkg) message) w =
    [lib_line_of
       (fst (LibLogger.logToServer token (JsStr level) (JsStr pkg) message w))] /\
  printed (StarterLogger.logToServer token (JsStr level) (JsStr pkg) message) w =
    (if present token && present message
     then [starter_line_of
             (fst (StarterLogger.logToServer token (JsStr level) (JsStr pkg) message w))]
     else []).
Proof.
  split.
  - unfold printed, lib_line_of, shown_logID. run.
    destruct (to_string token) as [bearer|e0]; simpl; [|apply skipn_past].
    destruct (network w (requests w) _) as [r|e]; simpl; [|apply skipn_past].
    destruct (ok r); simpl; [|apply skipn_past].
    destruct (json r) as [v|]; simpl; [|apply skipn_past].
    destruct (get_prop v "logID") as [i|e] eqn:Hid; simpl; [|apply skipn_past].
    destruct (to_string i) as [t|e] eqn:Hs; simpl; [|apply skipn_past].
    rewrite Hid, Hs. apply skipn_past.
  - destruct (present token && present message) eqn:Hp.
    2:{ unfold printed. rewrite (starter_rejects_locally _ _ _ _ _ Hp).
        simpl. apply skipn_all_of. }
    apply andb_prop in Hp. destruct Hp as [Ht Hm].
    destruct (present_string _ Hm) as (m & -> & Hne).
    destruct (starter_checks_pass token Ht m Hne) as [Ct Cm].
    unfold printed, starter_line_of, shown_logID, StarterLogger.logToServer.
    rewrite Ct, Cm. run.
    rewrite (present_bearer token Ht). simpl.
    destruct (network w (requests w) _) as [r|e]; simpl; [|apply skipn_past].
    destruct (ok r); simpl; [|apply skipn_past].
    destruct (json r) as [v|]; simpl; [|apply skipn_past].
    destruct (get_prop v "logID") as [i|e] eqn:Hid; simpl; [|apply skipn_past].
    destruct (to_string i) as [t|e] eqn:Hs; simpl; [|apply skipn_past].
    rewrite Hid, Hs. apply skipn_past.
Qed.

(** X3: when the fetch itself is rejected (the request does not get
    through), [logToServer] rethrows that same error, in both variants. *)
Theorem logToServer_transport_failure
    (token message : JsValue) (bearer level pkg : string) (w : World) (e : JsError) :
  (to_string token = Fulfilled bearer ->
   network w (requests w)
     (logs_request LibLogger.LOGS_ENDPOINT bearer
        (LogRequest (toLowerCase level) (toLowerCase pkg) message)) = Rejected e ->
   fst (LibLogger.logToServer token (JsStr level) (JsStr pkg) message w) = Rejected e) /\
  (forall m,
      message = JsStr m -> m <> "" -> present token = true ->
      network w (requests w)
        (logs_request StarterLogger.LOGS_ENDPOINT (bearer_of token)
           (LogRequest (toLowerCase level) (toLowerCase pkg) (JsStr (trim m)))) =
        Rejected e ->
      fst (StarterLogger.logToServer token (JsStr level) (JsStr pkg) message w) =
        Rejected e).
Proof.
  split.
  - intros Hb Hn. unfold logs_request in Hn. simpl in Hn. run.
    rewrite Hb. simpl. rewrite Hn. reflexivity.
  - intros m -> Hm Ht Hn. destruct (starter_checks_pass token Ht m Hm) as [Ct Cm].
    unfold logs_request in Hn. simpl in Hn.
    unfold StarterLogger.logToServer. rewrite Ct, Cm. run.
    rewrite (present_bearer token Ht). simpl. rewrite Hn. reflexivity.
Qed.

Lemma logToServer_transport_failure_witness :
  fst (LibLogger.logToServer (JsStr "t") (JsStr "warn") (JsStr "api") (JsStr "m")
         (world_answering (Rejected (TypeError "Failed to fetch")))) =
    Rejected (TypeError "Failed to fetch") /\
  fst (StarterLogger.logToServer (JsStr "t") (JsStr "warn") (JsStr "api") (JsStr "m")
         (world_answering (Rejected (TypeError "Failed to fetch")))) =
    Rejected (TypeError "Failed to fetch").
Proof.
  destruct (logToServer_transport_failure (JsStr "t") (JsStr "m") "t" "warn" "api"
              (world_answering (Rejected (TypeError "Failed to fetch")))
              (TypeError "Failed to fetch")) as [Hl Hs].
  split; [exact (Hl eq_refl eq_refl)|].
  refine (Hs "m" eq_refl _ eq_refl eq_refl). discriminate.
Defined.

(** X4: a level or a package that is not a string makes [logToServer] throw
    a [TypeError] when it builds the record, outside its [try]: nothing is
    sent and nothing is written to the console.  The standalone variant gets
    there once the token and the message have passed its check. *)
Theorem logToServer_level_not_a_string
    (token level pkg message : JsValue) (w : World) :
  is_string level = false \/ is_string pkg = false ->
  (exists msg,
      LibLogger.logToServer token level pkg message w = (Rejected (TypeError msg), w)) /\
  (present token = true -> present message = true ->
   exists msg,
     StarterLogger.logToServer token level pkg message w = (Rejected (TypeError msg), w)).
Proof.
  intros H. split.
  - destruct level, pkg; simpl in H; destruct H as [H | H]; try discriminate;
      eexists; run; reflexivity.
  - intros Ht Hm. destruct (present_string _ Hm) as (m & -> & Hne).
    destruct (starter_checks_pass token Ht m Hne) as [Ct Cm].
    unfold StarterLogger.logToServer. rewrite Ct, Cm.
    destruct level, pkg; simpl in H; destruct H as [H | H]; try discriminate;
      eexists; run; reflexivity.
Qed.

Lemma logToServer_level_not_a_string_witness :
  (exists msg,
      LibLogger.logToServer (JsStr "t") JsUndefined (JsStr "api") (JsStr "m")
        (world_answering (Fulfilled log_created)) =
      (Rejected (TypeError msg), world_answering (Fulfilled log_created))) /\
  (exists msg,
      StarterLogger.logToServer (JsStr "t") (JsStr "info") (JsBool true) (JsStr "m")
        (world_answering (Fulfilled log_created)) =
      (Rejected (TypeError msg), world_answering (Fulfilled log_created))).
Proof.
  split.
  - exact (proj1 (logToServer_level_not_a_string (JsStr "t") JsUndefined (JsStr "api")
                    (JsStr "m") (world_answering (Fulfilled log_created))
                    (or_introl eq_refl))).
  - exact (proj2 (logToServer_level_not_a_string (JsStr "t") (JsStr "info") (JsBool true)
                    (JsStr "m") (world_answering (Fulfilled log_created))
                    (or_intror eq_refl)) eq_refl eq_refl).
Defined.

Lemma get_prop_of_value (v : JsValue) (k : string) :
  v <> JsNull -> v <> JsUndefined -> exists x, get_prop v k = Fulfilled x.
Proof.
  intros Hn Hu. destruct v; simpl; try (eexists; reflexivity); congruence.
Qed.

(** X5: a 2xx answer is not yet a success.  When its body is not JSON the
    call throws the parser's [SyntaxError]; when its body is the JSON value
    [null] the call throws a [TypeError] (it reads [logID] off the body for
    its console line); for any other JSON value the call prints the [logID]
    it reads off it: the value is returned as the acknowledgment, whatever
    its shape, when that [logID] can be printed, and the call throws the
    error of the printing when it cannot. *)
Theorem logToServer_body_of_2xx
    (token message : JsValue) (bearer level pkg : string) (w : World) (r : Response) :
  to_string token = Fulfilled bearer ->
  network w (requests w)
    (logs_request LibLogger.LOGS_ENDPOINT bearer
       (LogRequest (toLowerCase level) (toLowerCase pkg) message)) = Fulfilled r ->
  ok r = true ->
  (json r = None ->
   exists msg,
     fst (LibLogger.logToServer token (JsStr level) (JsStr pkg) message w) =
     Rejected (SyntaxError msg)) /\
  (json r = Some JsNull ->
   exists msg,
     fst (LibLogger.logToServer token (JsStr level) (JsStr pkg) message w) =
     Rejected (TypeError msg)) /\
  (forall reply,
      json r = Some reply -> reply <> JsNull -> reply <> JsUndefined ->
      exists logID,
        get_prop reply "logID" = Fulfilled logID /\
        fst (LibLogger.logToServer token (JsStr level) (JsStr pkg) message w) =
        match to_string logID with
        | Fulfilled _ => Fulfilled reply
        | Rejected e => Rejected e
        end).
Proof.
  intros Hb Hn Hok. unfold logs_request in Hn. simpl in Hn. split; [|split].
  - intros Hj.
    eexists. run. rewrite Hb. simpl. rewrite Hn. simpl. rewrite Hok. simpl.
    rewrite Hj. reflexivity.
  - intros Hj.
    eexists. run. rewrite Hb. simpl. rewrite Hn. simpl. rewrite Hok. simpl.
    rewrite Hj. reflexivity.
  - intros reply Hj Hnull Hundef.
    destruct (get_prop_of_value reply "logID" Hnull Hundef) as [x Hx].
    exists x. split; [exact Hx|].
    run. rewrite Hb. simpl. rewrite Hn. simpl. rewrite Hok. simpl.
    rewrite Hj. simpl. rewrite Hx. simpl.
    destruct (to_string x); reflexivity.
Qed.

Lemma logToServer_body_of_2xx_witness :
  (exists msg,
      fst (LibLogger.logToServer (JsStr "t") (JsStr "info") (JsStr "api") (JsStr "m")
             (world_answering (Fulfilled (mkResponse 200 "<html>" None)))) =
      Rejected (SyntaxError msg)) /\
  (exists msg,
      fst (LibLogger.logToServer (JsStr "t") (JsStr "info") (JsStr "api") (JsStr "m")
             (world_answering (Fulfilled (mkResponse 200 "null" (Some JsNull))))) =
      Rejected (TypeError msg)) /\
  fst (LibLogger.logToServer (JsStr "t") (JsStr "info") (JsStr "api") (JsStr "m")
         (world_answering
            (Fulfilled (mkResponse 200 "" (Some (JsObj [("id", JsStr "a4")])))))) =
    Fulfilled (JsObj [("id", JsStr "a4")]) /\
  (exists msg,
      fst (LibLogger.logToServer (JsStr "t") (JsStr "info") (JsStr "api") (JsStr "m")
             (world_answering
                (Fulfilled (mkResponse 200 "" (Some (JsObj [("logID", unrenderable)])))))) =
      Rejected (TypeError msg)).
Proof.
  split; [|split; [|split]].
  - exact (proj1 (logToServer_body_of_2xx (JsStr "t") (JsStr "m") "t" "info" "api"
                    (world_answering (Fulfilled (mkResponse 200 "<html>" None)))
                    (mkResponse 200 "<html>" None) eq_refl eq_refl eq_refl) eq_refl).
  - exact (proj1 (proj2 (logToServer_body_of_2xx (JsStr "t") (JsStr "m") "t" "info" "api"
                    (world_answering (Fulfilled (mkResponse 200 "null" (Some JsNull))))
                    (mkResponse 200 "null" (Some JsNull)) eq_refl eq_refl eq_refl))
             eq_refl).
  - destruct (proj2 (proj2 (logToServer_body_of_2xx (JsStr "t") (JsStr "m") "t" "info" "api"
                    (world_answering
                       (Fulfilled (mkResponse 200 "" (Some (JsObj [("id", JsStr "a4")])))))
                    (mkResponse 200 "" (Some (JsObj [("id", JsStr "a4")])))
                    eq_refl eq_refl eq_refl))
              (JsObj [("id", JsStr "a4")]) eq_refl)
      as (logID & Hid & Hf); [discriminate | discriminate |].
    simpl in Hid. injection Hid as <-. exact Hf.
  - destruct (proj2 (proj2 (logToServer_body_of_2xx (JsStr "t") (JsStr "m") "t" "info" "api"
                    (world_answering
                       (Fulfilled (mkResponse 200 "" (Some (JsObj [("logID", unrenderable)])))))
                    (mkResponse 200 "" (Some (JsObj [("logID", unrenderable)])))
                    eq_refl eq_refl eq_refl))
              (JsObj [("logID", unrenderable)]) eq_refl)
      as (logID & Hid & Hf); [discriminate | discriminate |].
    simpl in Hid. injection Hid as <-. eexists. exact Hf.
Defined.

(** ** The authenticator, beyond the exchange *)

Lemma authenticate_2xx (c : AuthCredentials) (w : World) (r : Response) :
  network w (requests w) (auth_request c) = Fulfilled r -> ok r = true ->
  fst (LibLogger.authenticate c w) =
  match json r with
  | Some reply => Fulfilled reply
  | None => Rejected (SyntaxError "Unexpected token in JSON")
  end.
Proof.
  intros Hn Hok. unfold auth_request in Hn. simpl in Hn.
  run. rewrite Hn. simpl. rewrite Hok. simpl. destruct (json r); reflexivity.
Qed.

(** X6: [authenticate] makes one fetch and writes one console line, which
    tells its outcome; a rejected fetch is rethrown as it is, a 2xx answer
    that is not JSON throws the parser's error, and any JSON body of a 2xx
    answer is returned without a look at its shape, be it [null]. *)
Theorem authenticate_outcomes (c : AuthCredentials) (w : World) :
  printed (LibLogger.authenticate c) w =
    [auth_line_of (fst (LibLogger.authenticate c w))] /\
  ticks (snd (LibLogger.authenticate c w)) = ticks w /\
  (forall e,
      network w (requests w) (auth_request c) = Rejected e ->
      fst (LibLogger.authenticate c w) = Rejected e) /\
  (forall r,
      network w (requests w) (auth_request c) = Fulfilled r -> ok r = true ->
      fst (LibLogger.authenticate c w) =
      match json r with
      | Some reply => Fulfilled reply
      | None => Rejected (SyntaxError "Unexpected token in JSON")
      end).
Proof.
  split; [|split; [|split]].
  - unfold printed, auth_line_of. run.
    destruct (network w (requests w) _) as [r|e]; simpl; [|apply skipn_past].
    destruct (ok r); simpl; [|apply skipn_past].
    destruct (json r) as [v|]; simpl; apply skipn_past.
  - run.
    destruct (network w (requests w) _) as [r|e]; simpl; [|reflexivity].
    destruct (ok r); simpl; [|reflexivity].
    destruct (json r) as [v|]; reflexivity.
  - intros e Hn. unfold auth_request in Hn. simpl in Hn. run. rewrite Hn. reflexivity.
  - intros r Hn Hok. apply (authenticate_2xx c w r Hn Hok).
Qed.

Lemma authenticate_outcomes_witness :
  fst (LibLogger.authenticate (mkCredentials "e@x.org" "n" "r1" "code" "id" "secret")
         (world_answering (Rejected (TypeError "Failed to fetch")))) =
    Rejected (TypeError "Failed to fetch") /\
  fst (LibLogger.authenticate (mkCredentials "e@x.org" "n" "r1" "code" "id" "secret")
         (world_answering (Fulfilled (mkResponse 200 "null" (Some JsNull))))) =
    Fulfilled JsNull.
Proof.
  split.
  - destruct (authenticate_outcomes
                (mkCredentials "e@x.org" "n" "r1" "code" "id" "secret")
                (world_answering (Rejected (TypeError "Failed to fetch"))))
      as (_ & _ & H & _).
    exact (H _ eq_refl).
  - destruct (authenticate_outcomes
                (mkCredentials "e@x.org" "n" "r1" "code" "id" "secret")
                (world_answering (Fulfilled (mkResponse 200 "null" (Some JsNull)))))
      as (_ & _ & _ & H).
    exact (H (mkResponse 200 "null" (Some JsNull)) eq_refl eq_refl).
Defined.

(** ** The two variants side by side *)

(** X7: on a present token and a message that is not empty and has no white
    space around it, the two variants send the same request; they return or
    throw the same unless the answer has a status outside 200..299, where
    the text of the error differs; and when either call succeeds the two
    leave the same world behind, console included (on a failure each writes
    a failure line of its own). *)
Theorem variants_agree
    (token : JsValue) (level pkg m : string) (w : World) :
  present token = true -> m <> "" -> trim m = m ->
  sent (StarterLogger.logToServer token (JsStr level) (JsStr pkg) (JsStr m)) w =
    sent (LibLogger.logToServer token (JsStr level) (JsStr pkg) (JsStr m)) w /\
  ((forall r,
       network w (requests w)
         (logs_request LibLogger.LOGS_ENDPOINT (bearer_of token)
            (LogRequest (toLowerCase level) (toLowerCase pkg) (JsStr m))) =
         Fulfilled r -> ok r = true) ->
   fst (StarterLogger.logToServer token (JsStr level) (JsStr pkg) (JsStr m) w) =
     fst (LibLogger.logToServer token (JsStr level) (JsStr pkg) (JsStr m) w)) /\
  (forall ack,
      fst (LibLogger.logToServer token (JsStr level) (JsStr pkg) (JsStr m) w) =
        Fulfilled ack \/
      fst (StarterLogger.logToServer token (JsStr level) (JsStr pkg) (JsStr m) w) =
        Fulfilled ack ->
      StarterLogger.logToServer token (JsStr level) (JsStr pkg) (JsStr m) w =
        LibLogger.logToServer token (JsStr level) (JsStr pkg) (JsStr m) w).
Proof.
  intros Ht Hm Htrim.
  destruct (starter_checks_pass token Ht m Hm) as [Ct Cm].
  pose proof (present_bearer token Ht) as Hb.
  split; [|split].
  - rewrite (starter_sent token level pkg m w Ht Hm), lib_sent, Htrim, Hb. reflexivity.
  - intros Hok.
    unfold logs_request in Hok. simpl in Hok.
    unfold StarterLogger.logToServer. rewrite Ct, Cm. run. rewrite Htrim, Hb. simpl.
    change StarterLogger.LOGS_ENDPOINT with LibLogger.LOGS_ENDPOINT.
    destruct (network w (requests w) _) as [r|e] eqn:Hn; simpl; [|reflexivity].
    rewrite (Hok r eq_refl). simpl.
    destruct (json r) as [v|]; simpl; [|reflexivity].
    destruct (get_prop v "logID") as [i|e]; simpl; [|reflexivity].
    destruct (to_string i); reflexivity.
  - intros ack H.
    assert (exists r i t,
               network w (requests w)
                 (logs_request LibLogger.LOGS_ENDPOINT (bearer_of token)
                    (LogRequest (toLowerCase level) (toLowerCase pkg) (JsStr m))) =
                 Fulfilled r /\
               ok r = true /\ json r = Some ack /\
               get_prop ack "logID" = Fulfilled i /\ to_string i = Fulfilled t)
      as (r & i & t & Hn & Hok & Hj & Hid & Hs).
    { destruct H as [H | H].
      - destruct (LibLogger.logToServer token (JsStr level) (JsStr pkg) (JsStr m) w)
          as [o w'] eqn:E.
        simpl in H. subst o.
        destruct (lib_logToServer_fulfilled _ _ _ _ _ _ _ E)
          as (l & p & b & r & i & t & El & Ep & Hb' & Hn & Hok & Hj & Hid & Hs).
        injection El as <-. injection Ep as <-.
        rewrite Hb in Hb'. injection Hb' as <-.
        exists r, i, t. repeat split; assumption.
      - destruct (StarterLogger.logToServer token (JsStr level) (JsStr pkg) (JsStr m) w)
          as [o w'] eqn:E.
        simpl in H. subst o.
        destruct (starter_logToServer_fulfilled _ _ _ _ _ _ _ E)
          as (l & p & m' & r & i & t & El & Ep & Em & _ & _ & Hn & Hok & Hj & Hid & Hs).
        injection El as <-. injection Ep as <-. injection Em as <-.
        rewrite Htrim in Hn.
        exists r, i, t. repeat split; assumption. }
    unfold logs_request in Hn. simpl in Hn.
    unfold StarterLogger.logToServer. rewrite Ct, Cm. run. rewrite Htrim, Hb. simpl.
    change StarterLogger.LOGS_ENDPOINT with LibLogger.LOGS_ENDPOINT.
    rewrite Hn. simpl. rewrite Hok. simpl. rewrite Hj. simpl.
    rewrite Hid. simpl. rewrite Hs. reflexivity.
Qed.

Lemma variants_agree_witness :
  StarterLogger.logToServer (JsStr "t") (JsStr "Info") (JsStr "api") (JsStr "ready")
    (world_answering (Fulfilled log_created)) =
  LibLogger.logToServer (JsStr "t") (JsStr "Info") (JsStr "api") (JsStr "ready")
    (world_answering (Fulfilled log_created)).
Proof.
  assert (Hm : "ready" <> "") by discriminate.
  refine (proj2 (proj2 (variants_agree (JsStr "t") "Info" "api" "ready"
                          (world_answering (Fulfilled log_created)) eq_refl Hm eq_refl))
            (JsObj [("logID", JsStr "a4aad02e");
                    ("message", JsStr "log created successfully")])
            (or_introl eq_refl)).
Defined.

(** ** What trimming leaves *)

Lemma trimEnd_no_trailing_space (s : string) : ends_with_space (trimEnd s) = false.
Proof.
  induction s as [|c r IH]; simpl; [reflexivity|].
  destruct (trimEnd r) as [|a b].
  - destruct (is_space c) eqn:Hc; simpl; [reflexivity | exact Hc].
  - exact IH.
Qed.

Lemma trimStart_empty (s : string) : trimStart s = "" <-> all_space s = true.
Proof.
  induction s as [|c r IH]; simpl; [tauto|].
  destruct (is_space c); simpl; [exact IH|].
  split; discriminate.
Qed.

Lemma trimEnd_empty (s : string) : trimEnd s = "" <-> all_space s = true.
Proof.
  induction s as [|c r IH]; simpl; [tauto|].
  destruct (trimEnd r) as [|a b].
  - destruct (is_space c); simpl.
    + split; [intros _; apply IH; reflexivity | reflexivity].
    + split; discriminate.
  - split; [discriminate|].
    intros H. apply andb_prop in H. destruct H as [_ H].
    apply IH in H. discriminate.
Qed.

Lemma trim_shape (s : string) :
  starts_with_space (trim s) = false /\
  ends_with_space (trim s) = false /\
  (trim s = "" <-> all_space s = true).
Proof.
  unfold trim. split; [|split].
  - destruct (trimStart_head s) as [E | (c & r & E & Hc)]; rewrite E.
    + reflexivity.
    + destruct (trimEnd_keeps_head c r Hc) as (r' & ->). exact Hc.
  - apply trimEnd_no_trailing_space.
  - rewrite <- trimStart_empty.
    destruct (trimStart_head s) as [E | (c & r & E & Hc)]; rewrite E.
    + simpl. tauto.
    + destruct (trimEnd_keeps_head c r Hc) as (r' & ->). split; discriminate.
Qed.

(** X8: the message the standalone variant puts on the wire never starts or
    ends with white space, and it is the empty string exactly when the
    message given is made of white space only. *)
Theorem starter_message_on_the_wire
    (token : JsValue) (level pkg m : string) (w : World) :
  present token = true -> m <> "" ->
  exists t,
    outbound_messages
      (StarterLogger.logToServer token (JsStr level) (JsStr pkg) (JsStr m)) w =
      [Some (JsStr t)] /\
    starts_with_space t = false /\ ends_with_space t = false /\
    (t = "" <-> all_space m = true).
Proof.
  intros Ht Hm. exists (trim m). split.
  - unfold outbound_messages, outbound_payloads.
    rewrite (starter_sent token level pkg m w Ht Hm). reflexivity.
  - apply trim_shape.
Qed.

Lemma starter_message_on_the_wire_witness :
  exists t,
    outbound_messages
      (StarterLogger.logToServer (JsStr "t") (JsStr "info") (JsStr "api")
         (JsStr "  two words  "))
      (world_answering (Fulfilled log_created)) = [Some (JsStr t)] /\
    starts_with_space t = false /\ ends_with_space t = false /\
    (t = "" <-> all_space "  two words  " = true).
Proof.
  assert (Hm : "  two words  " <> "") by discriminate.
  exact (starter_message_on_the_wire (JsStr "t") "info" "api" "  two words  "
           (world_answering (Fulfilled log_created)) eq_refl Hm).
Defined.

(** ** The logger factory, on the wire *)

Lemma lib_payload_level (token level pkg message : JsValue) (w : World) (p : JsValue) :
  In p (outbound_payloads (LibLogger.logToServer token level pkg message) w) ->
  exists l, level = JsStr l /\
            field "stack" p = Some (JsStr "frontend") /\
            field "level" p = Some (JsStr (toLowerCase l)).
Proof.
  unfold outbound_payloads, sent.
  rewrite (proj1 (lib_trace token level pkg message w)), skipn_past.
  unfold lib_requests.
  destruct level as [| | | |l| |]; try (intros H; exact (False_ind _ H)).
  destruct pkg as [| | | |q| |]; try (intros H; exact (False_ind _ H)).
  destruct (to_string token) as [bearer|e]; [|intros H; exact (False_ind _ H)].
  simpl. intros [<- | []]. exists l. repeat split.
Qed.

Lemma starter_payload_level (token level pkg message : JsValue) (w : World) (p : JsValue) :
  In p (outbound_payloads (StarterLogger.logToServer token level pkg message) w) ->
  exists l, level = JsStr l /\
            field "stack" p = Some (JsStr "frontend") /\
            field "level" p = Some (JsStr (toLowerCase l)).
Proof.
  unfold outbound_payloads, sent.
  rewrite (proj1 (starter_trace token level pkg message w)), skipn_past.
  unfold starter_requests.
  destruct (present token && present message); [|intros H; exact (False_ind _ H)].
  destruct level as [| | | |l| |]; try (intros H; exact (False_ind _ H)).
  destruct pkg as [| | | |q| |]; try (intros H; exact (False_ind _ H)).
  destruct message as [| | | |m| |]; try (intros H; exact (False_ind _ H)).
  destruct token as [| | | |t| |]; try (intros H; exact (False_ind _ H)).
  simpl. intros [<- | []]. exists l. repeat split.
Qed.

(** X9: whatever package and message values its functions are called with,
    every record sent through a logger made by [createLogger] carries the
    origin "frontend" and a severity of the closed enumeration, in both
    variants. *)
Theorem createLogger_severity
    (token pkg message : JsValue) (w : World)
    (f : JsValue -> JsValue -> Async JsValue) (p : JsValue) :
  In f (logger_methods (LibLogger.createLogger token)) \/
  In f (logger_methods (StarterLogger.createLogger token)) ->
  In p (outbound_payloads (f pkg message) w) ->
  field "stack" p = Some (JsStr "frontend") /\
  exists lvl, In lvl LogLevels /\ field "level" p = Some (JsStr lvl).
Proof.
  intros Hf Hp.
  assert (H : exists l, In l LogLevels /\
                        field "stack" p = Some (JsStr "frontend") /\
                        field "level" p = Some (JsStr (toLowerCase l))).
  { destruct Hf as [Hf | Hf]; simpl in Hf;
      repeat (destruct Hf as [<- | Hf];
              [ first [ apply lib_payload_level in Hp
                      | apply starter_payload_level in Hp ];
                destruct Hp as (l & El & Hs & Hl); injection El as <-;
                eexists; split; [|split; [exact Hs | exact Hl]]; simpl; tauto |]);
      destruct Hf. }
  destruct H as (l & Hin & Hs & Hl). split; [exact Hs|].
  exists l. split; [exact Hin|]. rewrite (LogLevels_lower l Hin) in Hl. exact Hl.
Qed.

Lemma createLogger_severity_witness :
  field "stack" (LogRequest "fatal" "page" (JsStr "crash")) = Some (JsStr "frontend") /\
  exists lvl, In lvl LogLevels /\
              field "level" (LogRequest "fatal" "page" (JsStr "crash")) = Some (JsStr lvl).
Proof.
  refine (createLogger_severity (JsStr "t") (JsStr "PAGE") (JsStr "crash")
            (world_answering (Fulfilled log_created))
            (fatal (LibLogger.createLogger (JsStr "t")))
            (LogRequest "fatal" "page" (JsStr "crash")) _ _).
  - left. simpl. tauto.
  - vm_compute. left. reflexivity.
Defined.

(** * Further properties of the demo component *)

Lemma sendLog_run (token : JsValue) (level pkg : string) (message : JsValue)
    (st : LoggingDemo.State) (w : World) :
  truthy token = true ->
  LoggingDemo.sendLog token level pkg message (st, w) =
  (Fulfilled tt,
   after_click level pkg message st
     (fst (LibLogger.logToServer token (JsStr level) (JsStr pkg) message w))
     (snd (LibLogger.logToServer token (JsStr level) (JsStr pkg) message w))).
Proof.
  intros Ht.
  destruct (LibLogger.logToServer token (JsStr level) (JsStr pkg) message w)
    as [[ack|err] w1] eqn:E.
  - destruct (lib_logToServer_fulfilled _ _ _ _ _ _ _ E)
      as (l & p & b & r & i & t & _ & _ & _ & _ & _ & _ & Hid & _).
    run_ui. rewrite Ht. cbn [negb fst snd]. rewrite E. cbn [fst snd].
    unfold after_click. rewrite Hid. reflexivity.
  - run_ui. rewrite Ht. cbn [negb fst snd]. rewrite E. reflexivity.
Qed.

(** X10: a click never fails on its caller: [sendLog] always settles
    normally, adds exactly one notice, and, when there is a token, leaves no
    loading mark behind, whether the delivery worked or not. *)
Theorem sendLog_settles (token : JsValue) (level pkg : string) (message : JsValue)
    (st : LoggingDemo.State) (w : World) :
  fst (LoggingDemo.sendLog token level pkg message (st, w)) = Fulfilled tt /\
  (exists t,
      LoggingDemo.toasts (fst (snd (LoggingDemo.sendLog token level pkg message (st, w)))) =
      (LoggingDemo.toasts st ++ [t])%list) /\
  LoggingDemo.isLoading (fst (snd (LoggingDemo.sendLog token level pkg message (st, w)))) =
    (if truthy token then None else LoggingDemo.isLoading st).
Proof.
  destruct (truthy token) eqn:Ht.
  - rewrite (sendLog_run token level pkg message st w Ht).
    destruct (LibLogger.logToServer token (JsStr level) (JsStr pkg) message w)
      as [[ack|err] w1];
      (split; [reflexivity | split; [eexists; reflexivity | reflexivity]]).
  - rewrite (sendLog_no_token token level pkg message st w Ht).
    split; [reflexivity | split; [eexists; reflexivity | reflexivity]].
Qed.

(** X11: any token that counts as false ([null], [undefined], the empty
    string) is no token: the click only adds the notice; no fetch, no
    console line, no clock reading, the list and the loading mark as they
    were. *)
Theorem sendLog_falsy_token (token : JsValue) (level pkg : string) (message : JsValue)
    (st : LoggingDemo.State) (w : World) :
  truthy token = false ->
  snd (snd (LoggingDemo.sendLog token level pkg message (st, w))) = w /\
  LoggingDemo.logs (fst (snd (LoggingDemo.sendLog token level pkg message (st, w)))) =
    LoggingDemo.logs st /\
  LoggingDemo.toasts (fst (snd (LoggingDemo.sendLog token level pkg message (st, w)))) =
    (LoggingDemo.toasts st ++ [LoggingDemo.NoTokenToast])%list.
Proof.
  intros Ht. rewrite (sendLog_no_token token level pkg message st w Ht).
  repeat split.
Qed.

Lemma sendLog_falsy_token_witness :
  snd (snd (LoggingDemo.sendLog (JsStr "") "info" "api" (JsStr "m")
              (LoggingDemo.initial, world_answering (Fulfilled log_created)))) =
    world_answering (Fulfilled log_created) /\
  LoggingDemo.toasts
    (fst (snd (LoggingDemo.sendLog JsUndefined "info" "api" (JsStr "m")
                 (LoggingDemo.initial, world_answering (Fulfilled log_created))))) =
    [LoggingDemo.NoTokenToast].
Proof.
  split.
  - exact (proj1 (sendLog_falsy_token (JsStr "") "info" "api" (JsStr "m")
                    LoggingDemo.initial (world_answering (Fulfilled log_created))
                    eq_refl)).
  - exact (proj2 (proj2 (sendLog_falsy_token JsUndefined "info" "api"
                           (JsStr "m") LoggingDemo.initial
                           (world_answering (Fulfilled log_created)) eq_refl))).
Defined.

(** X12: when the token can be printed after "Bearer " and the logs endpoint
    answers 2xx with a body whose [logID] reads [logID], a value the console
    line can print, the click puts first an entry of status "success" whose
    id is that [logID], stamped with the clock as the locale renders it, and
    which shows the level, the package and the message as they were given
    (not the lower-case forms that went on the wire); the notice is the
    success one. *)
Theorem sendLog_success_entry
    (token message : JsValue) (bearer level pkg : string)
    (st : LoggingDemo.State) (w : World) (r : Response) (reply logID : JsValue)
    (shown : string) :
  truthy token = true ->
  to_string token = Fulfilled bearer ->
  network w (requests w)
    (logs_request LibLogger.LOGS_ENDPOINT bearer
       (LogRequest (toLowerCase level) (toLowerCase pkg) message)) = Fulfilled r ->
  ok r = true -> json r = Some reply -> get_prop reply "logID" = Fulfilled logID ->
  to_string logID = Fulfilled shown ->
  LoggingDemo.logs
    (fst (snd (LoggingDemo.sendLog token level pkg message (st, w)))) =
    LoggingDemo.mkLogEntry logID (toLocaleTimeString w (clock w (ticks w)))
      (JsStr level) (JsStr pkg) message "success"
    :: firstn 9 (LoggingDemo.logs st) /\
  LoggingDemo.toasts
    (fst (snd (LoggingDemo.sendLog token level pkg message (st, w)))) =
    (LoggingDemo.toasts st ++ [LoggingDemo.LogSentToast level])%list.
Proof.
  intros Ht Hb Hn Hok Hj Hid Hs.
  rewrite (sendLog_run token level pkg message st w Ht).
  pose proof (lib_logToServer_ok token bearer level pkg w message r reply logID shown
                Hb Hn Hok Hj Hid Hs)
    as Hf.
  assert (Hw : toLocaleTimeString
                 (snd (LibLogger.logToServer token (JsStr level) (JsStr pkg) message w)) =
               toLocaleTimeString w /\
               clock (snd (LibLogger.logToServer token (JsStr level) (JsStr pkg) message w)) =
               clock w /\
               ticks (snd (LibLogger.logToServer token (JsStr level) (JsStr pkg) message w)) =
               ticks w).
  { unfold logs_request in Hn. simpl in Hn. run. rewrite Hb. simpl.
    rewrite Hn. simpl. rewrite Hok. simpl.
    rewrite Hj. simpl. rewrite Hid. simpl. rewrite Hs. simpl. repeat split. }
  destruct Hw as (H1 & H2 & H3).
  rewrite Hf. unfold after_click. rewrite Hid, H1, H2, H3. split; reflexivity.
Qed.

Lemma sendLog_success_entry_witness :
  LoggingDemo.logs
    (fst (snd (LoggingDemo.sendLog (JsStr "t") "WARN" "Api" (JsStr " slow ")
                 (full_list, world_answering (Fulfilled log_created))))) =
    LoggingDemo.mkLogEntry (JsStr "a4aad02e") "10:00:00 AM"
      (JsStr "WARN") (JsStr "Api") (JsStr " slow ") "success"
    :: repeat old_entry 9.
Proof.
  exact (proj1 (sendLog_success_entry (JsStr "t") (JsStr " slow ") "t" "WARN" "Api"
                  full_list (world_answering (Fulfilled log_created)) log_created
                  _ (JsStr "a4aad02e") "a4aad02e"
                  eq_refl eq_refl eq_refl eq_refl eq_refl eq_refl eq_refl)).
Defined.

(** X13: a click with a token makes exactly the fetches of its one call of
    [logToServer]: one POST carrying the token as printed after "Bearer ",
    the level and the package in lower case and the message as given; or
    none at all when the token cannot be printed, in which case the entry
    shown is a failure. *)
Theorem sendLog_requests (token : JsValue) (level pkg : string) (message : JsValue)
    (st : LoggingDemo.State) (w : World) :
  truthy token = true ->
  requests (snd (snd (LoggingDemo.sendLog token level pkg message (st, w)))) =
    (requests w ++
     match to_string token with
     | Fulfilled bearer =>
         [mkRequest "http://20.244.56.144/evaluation-service/logs" "POST"
            [("Content-Type", "application/json");
             ("Authorization", ("Bearer " ++ bearer)%string)]
            (JSON_stringify
               (LogRequest (toLowerCase level) (toLowerCase pkg) message))]
     | Rejected _ => []
     end)%list /\
  (forall err,
      to_string token = Rejected err ->
      requests (snd (snd (LoggingDemo.sendLog token level pkg message (st, w)))) =
        requests w /\
      exists e,
        LoggingDemo.logs (fst (snd (LoggingDemo.sendLog token level pkg message (st, w)))) =
          e :: firstn 9 (LoggingDemo.logs st) /\
        LoggingDemo.status e = "error").
Proof.
  intros Ht. rewrite (sendLog_run token level pkg message st w Ht). split.
  - destruct (lib_trace token (JsStr level) (JsStr pkg) message w) as [Hr _].
    unfold lib_requests in Hr.
    destruct (LibLogger.logToServer token (JsStr level) (JsStr pkg) message w)
      as [[ack|err] w1];
      simpl in *; exact Hr.
  - intros err Hb.
    destruct (lib_unrenderable_token token message level pkg w err Hb) as [Hf Hr].
    rewrite Hf. simpl. split; [exact Hr|]. eexists. split; reflexivity.
Qed.

Lemma sendLog_requests_witness :
  requests
    (snd (snd (LoggingDemo.sendLog (JsStr "t") "Info" "api" (JsStr " m ")
                 (LoggingDemo.initial, world_answering (Fulfilled log_created))))) =
    [mkRequest "http://20.244.56.144/evaluation-service/logs" "POST"
       [("Content-Type", "application/json"); ("Authorization", "Bearer t")]
       (JSON_stringify (LogRequest "info" "api" (JsStr " m ")))] /\
  requests
    (snd (snd (LoggingDemo.sendLog unrenderable "info" "api" (JsStr "m")
                 (LoggingDemo.initial, world_answering (Fulfilled log_created))))) = [].
Proof.
  split.
  - exact (proj1 (sendLog_requests (JsStr "t") "Info" "api" (JsStr " m ")
                    LoggingDemo.initial (world_answering (Fulfilled log_created))
                    eq_refl)).
  - exact (proj1 (proj2 (sendLog_requests unrenderable "info" "api" (JsStr "m")
                           LoggingDemo.initial (world_answering (Fulfilled log_created))
                           eq_refl)
                    (TypeError "Cannot convert object to primitive value") eq_refl)).
Defined.

(** * The credentials form and the page *)

(** X14: typing into a field of the form sets that field and leaves the
    five others, the loading mark and the notices as they were. *)
Theorem handleInputChange_field
    (field : AuthSection.CredentialKey) (value : string) (st : AuthSection.State) :
  AuthSection.getField field
    (AuthSection.credentials (AuthSection.handleInputChange field value st)) = value /\
  (forall other,
      other <> field ->
      AuthSection.getField other
        (AuthSection.credentials (AuthSection.handleInputChange field value st)) =
      AuthSection.getField other (AuthSection.credentials st)) /\
  AuthSection.isLoading (AuthSection.handleInputChange field value st) =
    AuthSection.isLoading st /\
  AuthSection.toasts (AuthSection.handleInputChange field value st) =
    AuthSection.toasts st.
Proof.
  split; [destruct field; reflexivity|].
  split; [|split; reflexivity].
  intros other Hne. destruct field, other; try reflexivity; contradiction Hne; reflexivity.
Qed.

Ltac run_auth :=
  unfold AuthSection.onClick, AuthSection.handleAuthenticate, AuthSection.await,
    AuthSection.parent, AuthSection.setIsLoading, AuthSection.toast,
    Index.handleAuthSuccess, try_finally, try_catch, bind, settle, ret.

Lemma authenticate_trace (c : AuthCredentials) (w : World) :
  requests (snd (LibLogger.authenticate c w)) = (requests w ++ [auth_request c])%list.
Proof.
  unfold auth_request. run.
  destruct (network w (requests w) _) as [r|e]; simpl; [|reflexivity].
  destruct (ok r); simpl; [|reflexivity].
  destruct (json r) as [v|]; reflexivity.
Qed.

(** What the exchange leaves on the page, read off the outcome of
    [authenticate]. *)
Lemma handleAuthenticate_run (st : AuthSection.State) (idx : Index.State) (w : World) :
  AuthSection.handleAuthenticate Index.State Index.handleAuthSuccess ((st, idx), w) =
  (Fulfilled tt,
   match fst (LibLogger.authenticate (AuthSection.credentials st) w) with
   | Fulfilled response =>
       match get_prop response "access_token" with
       | Fulfilled access_token =>
           ((AuthSection.mkState (AuthSection.credentials st) false
               (AuthSection.toasts st ++ [AuthSection.AuthOkToast]),
             Index.mkState access_token true),
            snd (LibLogger.authenticate (AuthSection.credentials st) w))
       | Rejected _ =>
           ((AuthSection.mkState (AuthSection.credentials st) false
               (AuthSection.toasts st ++ [AuthSection.AuthFailedToast]),
             idx),
            snd (LibLogger.authenticate (AuthSection.credentials st) w))
       end
   | Rejected _ =>
       ((AuthSection.mkState (AuthSection.credentials st) false
           (AuthSection.toasts st ++ [AuthSection.AuthFailedToast]),
         idx),
        snd (LibLogger.authenticate (AuthSection.credentials st) w))
   end).
Proof.
  run_auth. cbn [fst snd AuthSection.credentials AuthSection.toasts AuthSection.isLoading].
  destruct (LibLogger.authenticate (AuthSection.credentials st) w) as [[resp|e] w1];
    cbn [fst snd]; [|reflexivity].
  destruct (get_prop resp "access_token"); reflexivity.
Qed.

(** X15: when the auth endpoint answers 2xx with a JSON body whose
    [access_token] reads [access_token], the form hands that value to the
    page, which stores it as the token and marks itself authenticated; the
    form shows the success notice, drops its loading mark and keeps the
    credentials; one request went out, with the credentials of the form. *)
Theorem handleAuthenticate_success
    (st : AuthSection.State) (idx : Index.State) (w : World)
    (r : Response) (reply access_token : JsValue) :
  network w (requests w) (auth_request (AuthSection.credentials st)) = Fulfilled r ->
  ok r = true -> json r = Some reply ->
  get_prop reply "access_token" = Fulfilled access_token ->
  exists w',
    AuthSection.handleAuthenticate Index.State Index.handleAuthSuccess ((st, idx), w) =
      (Fulfilled tt,
       ((AuthSection.mkState (AuthSection.credentials st) false
           (AuthSection.toasts st ++ [AuthSection.AuthOkToast]),
         Index.mkState access_token true), w')) /\
    requests w' = (requests w ++ [auth_request (AuthSection.credentials st)])%list.
Proof.
  intros Hn Hok Hj Hat.
  rewrite handleAuthenticate_run.
  rewrite (authenticate_2xx (AuthSection.credentials st) w r Hn Hok), Hj, Hat.
  eexists. split; [reflexivity | apply authenticate_trace].
Qed.

Lemma handleAuthenticate_success_witness :
  exists w',
    AuthSection.handleAuthenticate Index.State Index.handleAuthSuccess
      ((AuthSection.mkState (mkCredentials "e@x.org" "n" "r1" "code" "id" "secret")
          false [],
        Index.initial),
       world_answering (Fulfilled (mkResponse 200 "" (Some (AuthResponse "abc.def" seconds_3600))))) =
      (Fulfilled tt,
       ((AuthSection.mkState (mkCredentials "e@x.org" "n" "r1" "code" "id" "secret")
           false [AuthSection.AuthOkToast],
         Index.mkState (JsStr "abc.def") true), w')) /\
    requests w' = [auth_request (mkCredentials "e@x.org" "n" "r1" "code" "id" "secret")].
Proof.
  exact (handleAuthenticate_success
           (AuthSection.mkState (mkCredentials "e@x.org" "n" "r1" "code" "id" "secret")
              false [])
           Index.initial
           (world_answering
              (Fulfilled (mkResponse 200 "" (Some (AuthResponse "abc.def" seconds_3600)))))
           (mkResponse 200 "" (Some (AuthResponse "abc.def" seconds_3600)))
           (AuthResponse "abc.def" seconds_3600) (JsStr "abc.def")
           eq_refl eq_refl eq_refl eq_refl).
Defined.

(** X16: when [authenticate] throws, whatever the reason, or returns the
    JSON value [null], the page keeps its token and its flag; the form shows
    the failure notice, drops its loading mark and keeps the credentials,
    and the click itself settles normally. *)
Theorem handleAuthenticate_failure
    (st : AuthSection.State) (idx : Index.State) (w : World) :
  (exists e, fst (LibLogger.authenticate (AuthSection.credentials st) w) = Rejected e) \/
  fst (LibLogger.authenticate (AuthSection.credentials st) w) = Fulfilled JsNull ->
  AuthSection.handleAuthenticate Index.State Index.handleAuthSuccess ((st, idx), w) =
  (Fulfilled tt,
   ((AuthSection.mkState (AuthSection.credentials st) false
       (AuthSection.toasts st ++ [AuthSection.AuthFailedToast]),
     idx),
    snd (LibLogger.authenticate (AuthSection.credentials st) w))).
Proof.
  intros H. rewrite handleAuthenticate_run.
  destruct H as [[e ->] | ->]; reflexivity.
Qed.

Lemma handleAuthenticate_failure_witness :
  snd (fst (snd
    (AuthSection.handleAuthenticate Index.State Index.handleAuthSuccess
       ((AuthSection.mkState (mkCredentials "e@x.org" "n" "r1" "code" "id" "secret")
           false [],
         Index.initial),
        world_answering (Fulfilled unauthorized))))) = Index.initial.
Proof.
  assert (H : (exists e,
                 fst (LibLogger.authenticate
                        (mkCredentials "e@x.org" "n" "r1" "code" "id" "secret")
                        (world_answering (Fulfilled unauthorized))) = Rejected e) \/
              fst (LibLogger.authenticate
                     (mkCredentials "e@x.org" "n" "r1" "code" "id" "secret")
                     (world_answering (Fulfilled unauthorized))) = Fulfilled JsNull).
  { left. eexists. reflexivity. }
  rewrite (handleAuthenticate_failure
             (AuthSection.mkState (mkCredentials "e@x.org" "n" "r1" "code" "id" "secret")
                false [])
             Index.initial (world_answering (Fulfilled unauthorized)) H).
  reflexivity.
Defined.

Lemma sendLog_trace (token : JsValue) (level pkg : string) (message : JsValue)
    (st : LoggingDemo.State) (w : World) :
  truthy token = true ->
  requests (snd (snd (LoggingDemo.sendLog token level pkg message (st, w)))) =
    (requests w ++ lib_requests token (JsStr level) (JsStr pkg) message)%list.
Proof.
  intros Ht. rewrite (sendLog_run token level pkg message st w Ht).
  destruct (lib_trace token (JsStr level) (JsStr pkg) message w) as [Hr _].
  destruct (LibLogger.logToServer token (JsStr level) (JsStr pkg) message w)
    as [[ack|err] w1];
    simpl in *; exact Hr.
Qed.

Lemma LOG_EXAMPLES_wellformed (n : nat) (ex : DemoButtons.LogExample) :
  nth_error DemoButtons.LOG_EXAMPLES n = Some ex ->
  In (DemoButtons.level ex) LogLevels /\
  In (DemoButtons.package ex) FrontendPackages /\
  DemoButtons.message ex <> "".
Proof.
  intros H. apply nth_error_In in H. simpl in H.
  repeat (destruct H as [<- | H];
          [split; [simpl; tauto | split; [simpl; tauto | discriminate]]|]).
  destruct H.
Qed.

Lemma example_click_requests (token : JsValue) (n : nat)
    (st : LoggingDemo.State) (w : World) :
  requests (snd (snd (DemoButtons.onClick token n (st, w)))) = requests w \/
  exists ex bearer,
    nth_error DemoButtons.LOG_EXAMPLES n = Some ex /\
    DemoButtons.disabled token st ex = false /\
    to_string token = Fulfilled bearer /\
    requests (snd (snd (DemoButtons.onClick token n (st, w)))) =
      (requests w ++
       [logs_request LibLogger.LOGS_ENDPOINT bearer
          (LogRequest (DemoButtons.level ex) (DemoButtons.package ex)
             (JsStr (DemoButtons.message ex)))])%list.
Proof.
  unfold DemoButtons.onClick.
  destruct (nth_error DemoButtons.LOG_EXAMPLES n) as [ex|] eqn:E; [|left; reflexivity].
  cbn [fst snd].
  destruct (DemoButtons.disabled token st ex) eqn:D; [left; reflexivity|].
  pose proof D as D'.
  unfold DemoButtons.disabled in D. apply orb_false_elim in D. destruct D as [Dt _].
  apply negb_false_iff in Dt.
  rewrite (sendLog_trace token _ _ _ st w Dt). unfold lib_requests.
  destruct (to_string token) as [bearer|e] eqn:Hb.
  - right. exists ex, bearer. split; [reflexivity|]. split; [exact D'|].
    split; [reflexivity|].
    destruct (LOG_EXAMPLES_wellformed n ex E) as (Hl & Hp & _).
    rewrite (LogLevels_lower _ Hl), (FrontendPackages_lower _ Hp). reflexivity.
  - left. apply app_nil_r.
Qed.

Lemma step_inv (ev : Index.Event) (s : Index.Page * World) (base l : list Request) :
  requests (snd s) = (base ++ l)%list -> page_inv s l ->
  exists l',
    requests (snd (Index.step ev s)) = (base ++ l')%list /\ page_inv (Index.step ev s) l'.
Proof.
  destruct s as [pg w]. unfold page_inv. cbn [fst snd]. intros Hr [Hall Hun].
  destruct ev as [field value | | n].
  - exists l. unfold Index.step. cbn [fst snd].
    destruct (Index.isAuthenticated (Index.index pg)) eqn:Ha; cbn [fst snd Index.index].
    + split; [exact Hr|]. split; [exact Hall|]. rewrite Ha. discriminate.
    + split; [exact Hr|]. split; [exact Hall|]. intros _. apply Hun. reflexivity.
  - unfold Index.step, AuthSection.onClick. cbn [fst snd].
    destruct (Index.isAuthenticated (Index.index pg) ||
              AuthSection.disabled (Index.auth pg)) eqn:G.
    + exists l. cbn [fst snd Index.index]. split; [exact Hr|].
      split; [exact Hall | exact Hun].
    + apply orb_false_elim in G. destruct G as [Ha Hd].
      unfold AuthSection.disabled in Hd. apply orb_false_elim in Hd.
      destruct Hd as [_ He]. apply String.eqb_neq in He.
      rewrite handleAuthenticate_run.
      exists (l ++ [auth_request (AuthSection.credentials (Index.auth pg))])%list.
      assert (Hreq : page_request (auth_request (AuthSection.credentials (Index.auth pg)))).
      { left. eexists. split; [reflexivity | exact He]. }
      assert (Hw : requests (snd (LibLogger.authenticate
                                    (AuthSection.credentials (Index.auth pg)) w)) =
                   (base ++ l ++ [auth_request (AuthSection.credentials (Index.auth pg))])%list).
      { rewrite authenticate_trace, Hr, app_assoc. reflexivity. }
      destruct (Hun Ha) as [Htok Hauth].
      destruct (fst (LibLogger.authenticate (AuthSection.credentials (Index.auth pg)) w))
        as [resp|e]; [destruct (get_prop resp "access_token")|];
        cbn [fst snd Index.index Index.isAuthenticated Index.token];
        (split; [exact Hw|]);
        (split; [apply Forall_app; split; [exact Hall | constructor; [exact Hreq | constructor]]|]);
        try discriminate;
        (intros _; split; [exact Htok|];
         apply Forall_app; split; [exact Hauth|];
         constructor; [eexists; reflexivity | constructor]).
  - unfold Index.step. cbn [fst snd].
    destruct (DemoButtons.onClick (Index.token (Index.index pg)) n (Index.demo pg, w))
      as [o [d w']] eqn:E.
    pose proof (example_click_requests (Index.token (Index.index pg)) n (Index.demo pg) w)
      as Hc.
    rewrite E in Hc. cbn [fst snd] in Hc. cbn [fst snd Index.index].
    destruct Hc as [Hsame | (ex & bearer & Hnth & Hdis & _ & Hnew)].
    + exists l. split; [rewrite Hsame; exact Hr|]. split; [exact Hall | exact Hun].
    + exists (l ++ [logs_request LibLogger.LOGS_ENDPOINT bearer
                      (LogRequest (DemoButtons.level ex) (DemoButtons.package ex)
                         (JsStr (DemoButtons.message ex)))])%list.
      split; [rewrite Hnew, Hr, app_assoc; reflexivity|].
      destruct (LOG_EXAMPLES_wellformed n ex Hnth) as (Hl & Hp & Hm).
      split.
      * apply Forall_app. split; [exact Hall|].
        constructor; [|constructor].
        right. split; [split; reflexivity|].
        exists (DemoButtons.level ex), (DemoButtons.package ex), (DemoButtons.message ex).
        repeat split; assumption.
      * intros Ha. destruct (Hun Ha) as [Htok _].
        unfold DemoButtons.disabled in Hdis. rewrite Htok in Hdis. discriminate.
Qed.

Lemma run_inv (evs : list Index.Event) (s : Index.Page * World) (base l : list Request) :
  requests (snd s) = (base ++ l)%list -> page_inv s l ->
  exists l',
    requests (snd (Index.run evs s)) = (base ++ l')%list /\ page_inv (Index.run evs s) l'.
Proof.
  revert s l. induction evs as [|ev evs IH]; intros s l Hr Hi; simpl.
  - exists l. split; assumption.
  - destruct (step_inv ev s base l Hr Hi) as (l1 & Hr1 & Hi1).
    apply (IH _ l1 Hr1 Hi1).
Qed.

Lemma start_inv (w : World) : page_inv (Index.start, w) [].
Proof.
  split; [constructor|]. intros _. split; [reflexivity | constructor].
Qed.

(** X17: whatever is typed and clicked on the page, every request it makes
    is either the exchange of credentials that have an email, or a log
    record whose severity and category are members of the closed
    enumerations and whose message is not empty. *)
Theorem page_requests_wellformed (evs : list Index.Event) (w : World) :
  exists l,
    requests (snd (Index.run evs (Index.start, w))) = (requests w ++ l)%list /\
    Forall page_request l.
Proof.
  destruct (run_inv evs (Index.start, w) (requests w) [])
    as (l & Hr & Hall & _).
  - simpl. rewrite app_nil_r. reflexivity.
  - apply start_inv.
  - exists l. split; assumption.
Qed.

(** X18: as long as the page is not authenticated, it holds no token and
    has sent no log record: all its requests so far are exchanges of
    credentials. *)
Theorem page_no_log_before_authentication (evs : list Index.Event) (w : World) :
  Index.isAuthenticated (Index.index (fst (Index.run evs (Index.start, w)))) = false ->
  Index.token (Index.index (fst (Index.run evs (Index.start, w)))) = JsNull /\
  exists l,
    requests (snd (Index.run evs (Index.start, w))) = (requests w ++ l)%list /\
    Forall is_auth_request l.
Proof.
  intros Ha.
  destruct (run_inv evs (Index.start, w) (requests w) [])
    as (l & Hr & _ & Hun).
  - simpl. rewrite app_nil_r. reflexivity.
  - apply start_inv.
  - destruct (Hun Ha) as [Htok Hauth]. split; [exact Htok|].
    exists l. split; assumption.
Qed.

Lemma page_no_log_before_authentication_witness :
  Index.token
    (Index.index
       (fst (Index.run
               [Index.TypeInto AuthSection.Key_email "e@x.org"; Index.ClickAuthenticate;
                Index.ClickExample 2]
               (Index.start, world_answering (Fulfilled unauthorized))))) = JsNull /\
  exists l,
    requests
      (snd (Index.run
              [Index.TypeInto AuthSection.Key_email "e@x.org"; Index.ClickAuthenticate;
               Index.ClickExample 2]
              (Index.start, world_answering (Fulfilled unauthorized)))) =
      (requests (world_answering (Fulfilled unauthorized)) ++ l)%list /\
    Forall is_auth_request l.
Proof.
  exact (page_no_log_before_authentication
           [Index.TypeInto AuthSection.Key_email "e@x.org"; Index.ClickAuthenticate;
            Index.ClickExample 2]
           (world_answering (Fulfilled unauthorized)) eq_refl).
Defined.

Lemma LOG_EXAMPLES_lower (n : nat) (ex : DemoButtons.LogExample) :
  nth_error DemoButtons.LOG_EXAMPLES n = Some ex ->
  toLowerCase (DemoButtons.level ex) = DemoButtons.level ex /\
  toLowerCase (DemoButtons.package ex) = DemoButtons.package ex.
Proof.
  intros H. destruct (LOG_EXAMPLES_wellformed n ex H) as (Hl & Hp & _).
  split; [apply LogLevels_lower | apply FrontendPackages_lower]; assumption.
Qed.

Lemma click_authenticate_2xx (pg : Index.Page) (w : World)
    (r : Response) (reply access_token : JsValue) :
  Index.isAuthenticated (Index.index pg) = false ->
  AuthSection.disabled (Index.auth pg) = false ->
  network w (requests w) (auth_request (AuthSection.credentials (Index.auth pg))) =
    Fulfilled r ->
  ok r = true -> json r = Some reply ->
  get_prop reply "access_token" = Fulfilled access_token ->
  Index.index (fst (Index.step Index.ClickAuthenticate (pg, w))) =
    Index.mkState access_token true /\
  Index.demo (fst (Index.step Index.ClickAuthenticate (pg, w))) = Index.demo pg /\
  requests (snd (Index.step Index.ClickAuthenticate (pg, w))) =
    (requests w ++ [auth_request (AuthSection.credentials (Index.auth pg))])%list.
Proof.
  intros Ha Hd Hn Hok Hj Hat.
  unfold Index.step, AuthSection.onClick. cbn [fst snd]. rewrite Ha, Hd. cbn [orb].
  rewrite handleAuthenticate_run.
  rewrite (authenticate_2xx _ w r Hn Hok), Hj, Hat. cbn [fst snd Index.index Index.demo].
  split; [reflexivity|]. split; [reflexivity|]. apply authenticate_trace.
Qed.

(** X19: the token the page obtains is the credential of the logs it sends.
    From a page that is not authenticated and whose form has an email: when
    the auth endpoint answers 2xx with an [access_token] that counts as true
    and that a template literal prints as [bearer], a click on Authenticate
    followed by a click on an example makes two requests, the exchange of
    the credentials, then the example's record with [bearer] after
    "Bearer ". *)
Theorem page_authenticate_then_log
    (pg : Index.Page) (w : World) (r : Response) (reply access_token : JsValue)
    (bearer : string) (n : nat) (ex : DemoButtons.LogExample) :
  Index.isAuthenticated (Index.index pg) = false ->
  AuthSection.disabled (Index.auth pg) = false ->
  LoggingDemo.isLoading (Index.demo pg) = None ->
  network w (requests w) (auth_request (AuthSection.credentials (Index.auth pg))) =
    Fulfilled r ->
  ok r = true -> json r = Some reply ->
  get_prop reply "access_token" = Fulfilled access_token ->
  truthy access_token = true ->
  to_string access_token = Fulfilled bearer ->
  nth_error DemoButtons.LOG_EXAMPLES n = Some ex ->
  requests (snd (Index.run [Index.ClickAuthenticate; Index.ClickExample n] (pg, w))) =
    (requests w ++
     [auth_request (AuthSection.credentials (Index.auth pg));
      logs_request LibLogger.LOGS_ENDPOINT bearer
        (LogRequest (DemoButtons.level ex) (DemoButtons.package ex)
           (JsStr (DemoButtons.message ex)))])%list.
Proof.
  intros Ha Hd Hload Hn Hok Hj Hat Htruthy Hb Hnth.
  destruct (click_authenticate_2xx pg w r reply access_token Ha Hd Hn Hok Hj Hat)
    as (Hidx & Hdemo & Hreq).
  cbn [Index.run].
  destruct (Index.step Index.ClickAuthenticate (pg, w)) as [pg1 w1].
  cbn [fst snd] in Hidx, Hdemo, Hreq.
  unfold Index.step. cbn [fst snd]. rewrite Hidx, Hdemo. cbn [Index.token].
  destruct (DemoButtons.onClick access_token n (Index.demo pg, w1)) as [o [d w2]] eqn:E.
  cbn [snd].
  destruct (example_click_requests access_token n (Index.demo pg) w1)
    as [Hsame | (ex' & bearer' & Hnth' & _ & Hb' & Hnew)].
  - exfalso. revert Hsame. unfold DemoButtons.onClick. rewrite Hnth. cbn [fst snd].
    unfold DemoButtons.disabled. rewrite Htruthy, Hload. cbn [negb orb].
    rewrite (sendLog_trace access_token _ _ _ (Index.demo pg) w1 Htruthy).
    unfold lib_requests. rewrite Hb. intros Habs.
    apply (f_equal (@List.length Request)) in Habs.
    rewrite length_app in Habs. simpl in Habs. lia.
  - rewrite Hnth in Hnth'. injection Hnth' as <-.
    rewrite Hb in Hb'. injection Hb' as <-.
    rewrite E in Hnew. cbn [fst snd] in Hnew.
    rewrite Hnew, Hreq, <- app_assoc. reflexivity.
Qed.

Lemma page_authenticate_then_log_witness :
  requests
    (snd (Index.run [Index.ClickAuthenticate; Index.ClickExample 2]
            (Index.mkPage Index.initial
               (AuthSection.mkState
                  (mkCredentials "e@x.org" "n" "r1" "code" "id" "secret") false [])
               LoggingDemo.initial,
             world_answering
               (Fulfilled (mkResponse 200 "" (Some (AuthResponse "abc.def" seconds_3600))))))) =
    [auth_request (mkCredentials "e@x.org" "n" "r1" "code" "id" "secret");
     mkRequest LibLogger.LOGS_ENDPOINT "POST"
       [("Content-Type", "application/json"); ("Authorization", "Bearer abc.def")]
       (JSON_stringify
          (LogRequest "warn" "api" (JsStr "API response time exceeded 2 seconds")))].
Proof.
  exact (page_authenticate_then_log
           (Index.mkPage Index.initial
              (AuthSection.mkState
                 (mkCredentials "e@x.org" "n" "r1" "code" "id" "secret") false [])
              LoggingDemo.initial)
           (world_answering
              (Fulfilled (mkResponse 200 "" (Some (AuthResponse "abc.def" seconds_3600)))))
           (mkResponse 200 "" (Some (AuthResponse "abc.def" seconds_3600)))
           (AuthResponse "abc.def" seconds_3600) (JsStr "abc.def") "abc.def" 2
           (DemoButtons.mkExample "warn" "api" "API response time exceeded 2 seconds")
           eq_refl eq_refl eq_refl eq_refl eq_refl eq_refl eq_refl eq_refl eq_refl
           eq_refl).
Defined.

Lemma stuck_step (ev : Index.Event) (pg : Index.Page) (w : World) :
  Index.isAuthenticated (Index.index pg) = true ->
  truthy (Index.token (Index.index pg)) = false ->
  Index.index (fst (Index.step ev (pg, w))) = Index.index pg /\
  requests (snd (Index.step ev (pg, w))) = requests w.
Proof.
  intros Ha Ht. destruct ev as [field value | | n]; unfold Index.step; cbn [fst snd].
  - rewrite Ha. split; reflexivity.
  - unfold AuthSection.onClick. cbn [fst snd]. rewrite Ha. cbn [orb fst snd Index.index].
    split; reflexivity.
  - unfold DemoButtons.onClick.
    destruct (nth_error DemoButtons.LOG_EXAMPLES n) as [ex|];
      cbn [fst snd Index.index]; [|split; reflexivity].
    unfold DemoButtons.disabled. rewrite Ht. cbn [negb orb fst snd Index.index].
    split; reflexivity.
Qed.

Lemma stuck_run (evs : list Index.Event) (pg : Index.Page) (w : World) :
  Index.isAuthenticated (Index.index pg) = true ->
  truthy (Index.token (Index.index pg)) = false ->
  Index.index (fst (Index.run evs (pg, w))) = Index.index pg /\
  requests (snd (Index.run evs (pg, w))) = requests w.
Proof.
  revert pg w. induction evs as [|ev evs IH]; intros pg w Ha Ht; simpl;
    [split; reflexivity|].
  destruct (stuck_step ev pg w Ha Ht) as [Hi Hr].
  destruct (Index.step ev (pg, w)) as [pg1 w1]. cbn [fst snd] in Hi, Hr.
  destruct (IH pg1 w1) as [Hi' Hr']; [rewrite Hi; exact Ha | rewrite Hi; exact Ht|].
  split; [rewrite Hi', Hi; reflexivity | rewrite Hr', Hr; reflexivity].
Qed.

(** X20: a 2xx answer of the auth endpoint whose [access_token] is missing
    or counts as false (the empty string, [null]) leaves the page marked
    authenticated with a token no button accepts: whatever is typed and
    clicked afterwards, the page makes no further request. *)
Theorem page_authenticated_without_token
    (pg : Index.Page) (w : World) (r : Response) (reply access_token : JsValue)
    (evs : list Index.Event) :
  Index.isAuthenticated (Index.index pg) = false ->
  AuthSection.disabled (Index.auth pg) = false ->
  network w (requests w) (auth_request (AuthSection.credentials (Index.auth pg))) =
    Fulfilled r ->
  ok r = true -> json r = Some reply ->
  get_prop reply "access_token" = Fulfilled access_token ->
  truthy access_token = false ->
  Index.index (fst (Index.run (Index.ClickAuthenticate :: evs) (pg, w))) =
    Index.mkState access_token true /\
  requests (snd (Index.run (Index.ClickAuthenticate :: evs) (pg, w))) =
    (requests w ++ [auth_request (AuthSection.credentials (Index.auth pg))])%list.
Proof.
  intros Ha Hd Hn Hok Hj Hat Hfalsy.
  destruct (click_authenticate_2xx pg w r reply access_token Ha Hd Hn Hok Hj Hat)
    as (Hidx & _ & Hreq).
  cbn [Index.run].
  destruct (Index.step Index.ClickAuthenticate (pg, w)) as [pg1 w1].
  cbn [fst snd] in Hidx, Hreq.
  destruct (stuck_run evs pg1 w1) as [Hi Hr];
    [rewrite Hidx; reflexivity | rewrite Hidx; exact Hfalsy|].
  split; [rewrite Hi; exact Hidx | rewrite Hr; exact Hreq].
Qed.

Lemma page_authenticated_without_token_witness :
  Index.index
    (fst (Index.run [Index.ClickAuthenticate; Index.ClickExample 0; Index.ClickAuthenticate]
            (Index.mkPage Index.initial
               (AuthSection.mkState
                  (mkCredentials "e@x.org" "n" "r1" "code" "id" "secret") false [])
               LoggingDemo.initial,
             world_answering (Fulfilled log_created)))) =
    Index.mkState JsUndefined true /\
  requests
    (snd (Index.run [Index.ClickAuthenticate; Index.ClickExample 0; Index.ClickAuthenticate]
            (Index.mkPage Index.initial
               (AuthSection.mkState
                  (mkCredentials "e@x.org" "n" "r1" "code" "id" "secret") false [])
               LoggingDemo.initial,
             world_answering (Fulfilled log_created)))) =
    [auth_request (mkCredentials "e@x.org" "n" "r1" "code" "id" "secret")].
Proof.
  exact (page_authenticated_without_token
           (Index.mkPage Index.initial
              (AuthSection.mkState
                 (mkCredentials "e@x.org" "n" "r1" "code" "id" "secret") false [])
              LoggingDemo.initial)
           (world_answering (Fulfilled log_created)) log_created
           (JsObj [("logID", JsStr "a4aad02e"); ("message", JsStr "log created successfully")])
           JsUndefined [Index.ClickExample 0; Index.ClickAuthenticate]
           eq_refl eq_refl eq_refl eq_refl eq_refl eq_refl eq_refl).
Defined.

(** * The page of the starter code *)

Ltac run_home :=
  unfold HomePage.sendLog, HomePage.authenticate, HomePage.await, HomePage.setToken,
    HomePage.setIsAuthenticated, HomePage.setIsAuthenticating, HomePage.setLogs,
    HomePage.setIsLoading, HomePage.alert, HomePage.console_page, HomePage.update,
    response_json, try_finally, try_catch, bind, when, settle, ret, throw, fetch,
    Date_now.

(** X21: with a token, a click on the starter page settles normally, puts
    one entry first and keeps the nine newest of the others; the entry is
    made before the call, its id is the clock reading taken then, and its
    status tells whether the call of the logger returned or threw; the
    token and the flag are untouched and the loading mark is dropped.  This
    holds for any logger the page is built with. *)
Theorem HomePage_sendLog_entry
    (logToServer : JsValue -> JsValue -> JsValue -> JsValue -> Async JsValue)
    (toISOString : Z -> string)
    (level pkg message : JsValue) (st : HomePage.State) (w : World) :
  truthy (HomePage.token st) = true ->
  fst (HomePage.sendLog logToServer toISOString level pkg message (st, w)) = Fulfilled tt /\
  exists e,
    HomePage.logs
      (fst (snd (HomePage.sendLog logToServer toISOString level pkg message (st, w)))) =
      e :: firstn 9 (HomePage.logs st) /\
    HomePage.id e = string_of_Z (clock w (ticks w)) /\
    HomePage.level e = level /\ HomePage.package e = pkg /\
    HomePage.message e = message /\
    HomePage.status e =
      match fst (logToServer (HomePage.token st) level pkg message (ticked (ticked w))) with
      | Fulfilled _ => "success"
      | Rejected _ => "error"
      end /\
    HomePage.isLoading
      (fst (snd (HomePage.sendLog logToServer toISOString level pkg message (st, w)))) =
      false /\
    HomePage.token
      (fst (snd (HomePage.sendLog logToServer toISOString level pkg message (st, w)))) =
      HomePage.token st.
Proof.
  intros Ht. run_home. cbn [fst snd]. rewrite Ht. cbn [negb fst snd].
  unfold ticked, Date_now. cbn [fst snd ticks clock network toLocaleTimeString requests console].
  destruct (logToServer (HomePage.token st) level pkg message _) as [[resp|e] w1];
    cbn; (split; [reflexivity|]); eexists; repeat split.
Qed.

Lemma HomePage_sendLog_entry_witness :
  exists e,
    HomePage.logs
      (fst (snd (HomePage.sendLog StarterLogger.logToServer (fun _ => "2025-01-01T10:00:00.000Z")
                   (JsStr "warn") (JsStr "api") (JsStr "slow")
                   (HomePage.mkState (JsStr "t") true false [] false [] [],
                    world_answering (Fulfilled unauthorized))))) = [e] /\
    HomePage.id e = "1000" /\ HomePage.status e = "error".
Proof.
  destruct (HomePage_sendLog_entry StarterLogger.logToServer
              (fun _ => "2025-01-01T10:00:00.000Z")
              (JsStr "warn") (JsStr "api") (JsStr "slow")
              (HomePage.mkState (JsStr "t") true false [] false [] [])
              (world_answering (Fulfilled unauthorized)) eq_refl)
    as (_ & e & Hl & Hid & _ & _ & _ & Hs & _).
  exists e. split; [exact Hl|]. split; [exact Hid | exact Hs].
Defined.

(** X22: on the starter page, once the auth endpoint has answered 2xx with
    a body whose [access_token] reads [access_token], that value is stored
    as the token and the page is marked authenticated whatever happens to
    the log record the page sends next; yet when that call of the logger
    throws, the page raises the alert that authentication failed.  This
    holds for any logger the page is built with. *)
Theorem HomePage_authenticate_2xx
    (logToServer : JsValue -> JsValue -> JsValue -> JsValue -> Async JsValue)
    (toISOString : Z -> string)
    (env : HomePage.Env) (st : HomePage.State) (w : World)
    (r : Response) (reply access_token : JsValue) :
  network w (requests w) (HomePage.auth_fetch env) = Fulfilled r ->
  ok r = true -> json r = Some reply ->
  get_prop reply "access_token" = Fulfilled access_token ->
  HomePage.token
    (fst (snd (HomePage.authenticate logToServer env (st, w)))) = access_token /\
  HomePage.isAuthenticated
    (fst (snd (HomePage.authenticate logToServer env (st, w)))) = true /\
  HomePage.isAuthenticating
    (fst (snd (HomePage.authenticate logToServer env (st, w)))) = false /\
  HomePage.alerts
    (fst (snd (HomePage.authenticate logToServer env (st, w)))) =
    match fst (logToServer access_token (JsStr "info") (JsStr "auth")
                 (JsStr "User successfully authenticated")
                 (snd (fetch (HomePage.auth_fetch env) w))) with
    | Fulfilled _ => HomePage.alerts st
    | Rejected _ =>
        (HomePage.alerts st ++
         ["Authentication failed. Please check your credentials."])%list
    end.
Proof.
  intros Hn Hok Hj Hat. run_home. cbn [fst snd]. rewrite Hn. cbn [fst snd].
  rewrite Hok. cbn [negb fst snd]. rewrite Hj. cbn [fst snd]. rewrite Hat.
  cbn [fst snd].
  destruct (logToServer access_token _ _ _ _) as [[resp|e] w1]; cbn; repeat split.
Qed.

Lemma HomePage_authenticate_2xx_witness :
  HomePage.token
    (fst (snd (HomePage.authenticate StarterLogger.logToServer
                 (HomePage.mkEnv (JsStr "e@x.org") (JsStr "n") (JsStr "r1")
                    (JsStr "code") (JsStr "id") (JsStr "secret"))
                 (HomePage.initial, world_answering (Fulfilled log_created))))) =
    JsUndefined /\
  HomePage.isAuthenticated
    (fst (snd (HomePage.authenticate StarterLogger.logToServer
                 (HomePage.mkEnv (JsStr "e@x.org") (JsStr "n") (JsStr "r1")
                    (JsStr "code") (JsStr "id") (JsStr "secret"))
                 (HomePage.initial, world_answering (Fulfilled log_created))))) = true /\
  HomePage.alerts
    (fst (snd (HomePage.authenticate StarterLogger.logToServer
                 (HomePage.mkEnv (JsStr "e@x.org") (JsStr "n") (JsStr "r1")
                    (JsStr "code") (JsStr "id") (JsStr "secret"))
                 (HomePage.initial, world_answering (Fulfilled log_created))))) =
    ["Authentication failed. Please check your credentials."].
Proof.
  destruct (HomePage_authenticate_2xx StarterLogger.logToServer (fun _ => "")
              (HomePage.mkEnv (JsStr "e@x.org") (JsStr "n") (JsStr "r1")
                 (JsStr "code") (JsStr "id") (JsStr "secret"))
              HomePage.initial (world_answering (Fulfilled log_created)) log_created
              _ JsUndefined eq_refl eq_refl eq_refl eq_refl)
    as (Ht & Ha & _ & Hal).
  split; [exact Ht|]. split; [exact Ha | exact Hal].
Defined.

(** X23: on the starter page, when the fetch to the auth endpoint is
    rejected or answered with a status outside 200..299, the token and the
    flag stay as they were, the alert is raised, the mark of an
    authentication in progress is dropped, and the logger is not called:
    the world is the one the single fetch left. *)
Theorem HomePage_authenticate_refused
    (logToServer : JsValue -> JsValue -> JsValue -> JsValue -> Async JsValue)
    (env : HomePage.Env) (st : HomePage.State) (w : World) :
  (exists e, network w (requests w) (HomePage.auth_fetch env) = Rejected e) \/
  (exists r, network w (requests w) (HomePage.auth_fetch env) = Fulfilled r /\
             ok r = false) ->
  HomePage.authenticate logToServer env (st, w) =
  (Fulfilled tt,
   (HomePage.mkState (HomePage.token st) (HomePage.isAuthenticated st) false
      (HomePage.logs st) (HomePage.isLoading st)
      (HomePage.alerts st ++ ["Authentication failed. Please check your credentials."])
      (HomePage.page_console st ++
       [HomePage.AuthErrorLine
          (auth_refusal (network w (requests w) (HomePage.auth_fetch env)))]),
    snd (fetch (HomePage.auth_fetch env) w))).
Proof.
  intros [[e Hn] | (r & Hn & Hok)].
  - run_home. cbn [fst snd]. rewrite Hn. reflexivity.
  - run_home. cbn [fst snd]. rewrite Hn. cbn [fst snd]. rewrite Hok. reflexivity.
Qed.

Lemma HomePage_authenticate_refused_witness :
  HomePage.authenticate StarterLogger.logToServer
    (HomePage.mkEnv (JsStr "e@x.org") (JsStr "n") (JsStr "r1")
       (JsStr "code") (JsStr "id") (JsStr "secret"))
    (HomePage.initial, world_answering (Fulfilled unauthorized)) =
  (Fulfilled tt,
   (HomePage.mkState JsNull false false [] false
      ["Authentication failed. Please check your credentials."]
      [HomePage.AuthErrorLine (Error "Authentication failed: 401")],
    snd (fetch
           (HomePage.auth_fetch
              (HomePage.mkEnv (JsStr "e@x.org") (JsStr "n") (JsStr "r1")
                 (JsStr "code") (JsStr "id") (JsStr "secret")))
           (world_answering (Fulfilled unauthorized))))).
Proof.
  rewrite (HomePage_authenticate_refused StarterLogger.logToServer
             (HomePage.mkEnv (JsStr "e@x.org") (JsStr "n") (JsStr "r1")
                (JsStr "code") (JsStr "id") (JsStr "secret"))
             HomePage.initial (world_answering (Fulfilled unauthorized))
             (or_intror (ex_intro _ unauthorized (conj eq_refl eq_refl)))).
  reflexivity.
Defined.
